(** * highdicom.sr.coding: the [CodedConcept] dataset

  A shallow embedding of [src/highdicom/sr/coding.py].  A [CodedConcept]
  is a pydicom [Dataset] whose attributes are those of the Code Sequence
  Macro.  Python objects live in a store addressed by references, so
  that the class retag of [from_dataset], the deep copy it makes and
  the identity passthrough of [from_code] are visible in the model. *)

From Stdlib Require Import ZArith String Ascii.
From stdpp Require Import gmap strings list fin_maps.

(** ** Python strings

    A Python [str] is a sequence of characters; the characters are taken
    from [ascii] here, and [len] counts them. *)

Module Str.

(** [len(s)] *)
Definition len (s : string) : nat := String.length s.

(** [s.startswith(p)] *)
Definition startswith (s p : string) : bool := String.prefix p s.

(** [sub in s]: some suffix of [s] starts with [sub]. *)
Fixpoint contains (sub s : string) : bool :=
  String.prefix sub s ||
  match s with
  | EmptyString => false
  | String _ s' => contains sub s'
  end.

End Str.

(** ** The object store *)

Module Py.

(** The exceptions raised in [coding.py]. *)
Inductive exn := TypeError | ValueError | AttributeError.

(** The two classes whose instances the store holds; [CodedConcept]
    is a subclass of [Dataset]. *)
Inductive pyclass := Dataset | CodedConcept.

(** A dataset object: its [__class__] and its data elements, keyed by
    DICOM keyword.  Every attribute of the Code Sequence Macro read or
    written here has a string value representation. *)
Record obj := Obj { cls : pyclass; attrs : gmap string string }.

Abbreviation loc := positive.
Abbreviation heap := (gmap positive obj).

(** The outcome of running a piece of code on a store: a value, an
    exception, or [Wrong] when the run leaves the typed fragment that is
    modelled: a reference that does not point into the store, or an
    argument outside the annotated type of the function.  An exception
    keeps the store it was raised in. *)
Inductive outcome (A : Type) :=
| Ret (a : A) (h : heap)
| Raise (e : exn) (h : heap)
| Wrong.
Arguments Ret {A} a h.
Arguments Raise {A} e h.
Arguments Wrong {A}.

Definition M (A : Type) := heap → outcome A.

Definition ret {A} (a : A) : M A := fun h => Ret a h.

Definition bind {A B} (m : M A) (k : A → M B) : M B :=
  fun h =>
    match m h with
    | Ret a h' => k a h'
    | Raise e h' => Raise e h'
    | Wrong => Wrong
    end.

Definition raise {A} (e : exn) : M A := fun h => Raise e h.

(** The run has left the modelled fragment. *)
Definition ill_typed {A} : M A := fun _ => Wrong.

(** The exception an outcome carries, if any. *)
Definition raised {A} (o : outcome A) : option exn :=
  match o with Raise e _ => Some e | _ => None end.

Definition get_obj (l : loc) : M obj :=
  fun h => match h !! l with Some o => Ret o h | None => Wrong end.

(** The object [o] is placed at a reference the store does not use yet. *)
Definition alloc (o : obj) : M loc :=
  fun h => let l := fresh (dom h) in Ret l (<[l := o]> h).

(** [hasattr(o, kw)] *)
Definition hasattr (l : loc) (kw : string) : M bool :=
  fun h =>
    match h !! l with
    | Some o => Ret (bool_decide (is_Some (attrs o !! kw))) h
    | None => Wrong
    end.

(** [o.kw]: the attribute, or [AttributeError]. *)
Definition getattr (l : loc) (kw : string) : M string :=
  fun h =>
    match h !! l with
    | Some o =>
        match attrs o !! kw with
        | Some s => Ret s h
        | None => Raise AttributeError h
        end
    | None => Wrong
    end.

(** [getattr(o, kw, d)], where [None] is Python's [None]. *)
Definition getattr_default (l : loc) (kw : string) (d : option string)
    : M (option string) :=
  fun h =>
    match h !! l with
    | Some o => Ret (match attrs o !! kw with Some s => Some s | None => d end) h
    | None => Wrong
    end.

(** [o.kw = s] *)
Definition setattr (l : loc) (kw s : string) : M unit :=
  fun h =>
    match h !! l with
    | Some o => Ret tt (<[l := Obj (cls o) (<[kw := s]> (attrs o))]> h)
    | None => Wrong
    end.

(** [o.__class__ = c] *)
Definition set_class (l : loc) (c : pyclass) : M unit :=
  fun h =>
    match h !! l with
    | Some o => Ret tt (<[l := Obj c (attrs o)]> h)
    | None => Wrong
    end.

(** [type(o)] *)
Definition class_of (l : loc) : M pyclass :=
  fun h => match h !! l with Some o => Ret (cls o) h | None => Wrong end.

End Py.

Import Py.

#[global] Instance M_ret : MRet M := @ret.
#[global] Instance M_bind : MBind M := fun A B k m => bind m k.

(** ** pydicom: the collaborators of [coding.py] *)

Module Pydicom.

(** [pydicom.sr.coding.Code], a named tuple of four fields.  The value
    field is [None] when the tuple is built from a dataset that has no
    code-value attribute (see [CodedConcept.value]). *)
Record Code := mkCode {
  value : option string;
  scheme_designator : string;
  meaning : string;
  scheme_version : option string
}.

(** The Python values that reach the functions of [coding.py]: [None], a
    string, a [Code] tuple, or a reference to a dataset in the store. *)
Inductive object := VNone | VStr (s : string) | VCode (c : Code) | VRef (l : loc).

(** [isinstance(o, Dataset)]: every object of the store is a dataset. *)
Definition isinstance_Dataset (o : object) : M bool :=
  match o with
  | VRef l => _ ← class_of l; mret true
  | _ => mret false
  end.

(** [isinstance(o, CodedConcept)] *)
Definition isinstance_CodedConcept (o : object) : M bool :=
  match o with
  | VRef l =>
      c ← class_of l;
      mret (match c with CodedConcept => true | Dataset => false end)
  | _ => mret false
  end.

(** [isinstance(o, Code)] *)
Definition isinstance_Code (o : object) : bool :=
  match o with VCode _ => true | _ => false end.

(** Modelled from the spec: pydicom's [Dataset.__eq__], the structural
    equality of the underlying attribute containers; a value that is not
    a container is never equal to one. *)
Definition Dataset___eq__ (self : loc) (other : object) : M bool :=
  a ← get_obj self;
  match other with
  | VRef l => b ← get_obj l; mret (bool_decide (attrs a = attrs b))
  | _ => mret false
  end.

(** Modelled from the spec: [copy.deepcopy] of a dataset, a new object of
    the same class holding the same data elements; the source object is
    not touched. *)
Definition deepcopy (l : loc) : M loc :=
  o ← get_obj l;
  alloc (Obj (cls o) (attrs o)).

End Pydicom.

Import Pydicom.

Module CodedConcept.

Definition __init__ (self : loc) (value scheme_designator meaning : string)
    (scheme_version : option string) : M unit :=
  (if 16 <? Str.len value then
     if Str.startswith value "urn" || Str.contains "://" value then
       setattr self "URNCodeValue" value
     else
       setattr self "LongCodeValue" value
   else
     setattr self "CodeValue" value);;
  (if 64 <? Str.len meaning then raise ValueError else mret tt);;
  setattr self "CodeMeaning" meaning;;
  setattr self "CodingSchemeDesignator" scheme_designator;;
  match scheme_version with
  | Some v => setattr self "CodingSchemeVersion" v
  | None => mret tt
  end.

(** [cls(value, scheme_designator, meaning, scheme_version)]: a new
    instance, empty after [super().__init__()], on which [__init__] runs. *)
Definition construct (value scheme_designator meaning : string)
    (scheme_version : option string) : M loc :=
  self ← alloc (Obj CodedConcept ∅);
  __init__ self value scheme_designator meaning scheme_version;;
  mret self.

Definition value (self : loc) : M (option string) :=
  urn ← getattr_default self "URNCodeValue" None;
  long ← getattr_default self "LongCodeValue" urn;
  getattr_default self "CodeValue" long.

Definition meaning (self : loc) : M string :=
  getattr self "CodeMeaning".

Definition scheme_designator (self : loc) : M string :=
  getattr self "CodingSchemeDesignator".

Definition scheme_version (self : loc) : M (option string) :=
  getattr_default self "CodingSchemeVersion" None.

Section Hash.

(** Python's built-in [hash] on strings. *)
Variable hash : string → Z.

Definition __hash__ (self : loc) : M Z :=
  d ← scheme_designator self;
  v ← value self;
  match v with
  | Some v => mret (hash (d +:+ v))
  | None => raise TypeError
  end.

End Hash.

(** Modelled from the spec: pydicom's [Code.__eq__], which holds two
    codes equal iff their [value] and [scheme_designator] match.  The
    right operand is read through these two attributes, which a [Code]
    has as fields and a [CodedConcept] as properties. *)
Definition Code___eq__ (this : Code) (other : object) : M bool :=
  match other with
  | VCode c =>
      mret (bool_decide (Pydicom.value this = Pydicom.value c)
            && bool_decide (Pydicom.scheme_designator this
                            = Pydicom.scheme_designator c))
  | VRef l =>
      c ← class_of l;
      match c with
      | CodedConcept =>
          v ← value l;
          d ← scheme_designator l;
          mret (bool_decide (Pydicom.value this = v)
                && bool_decide (Pydicom.scheme_designator this = d))
      | Dataset => raise AttributeError
      end
  | _ => raise AttributeError
  end.

Definition __eq__ (self : loc) (other : object) : M bool :=
  is_concept ← isinstance_CodedConcept other;
  if isinstance_Code other || is_concept then
    v ← value self;
    d ← scheme_designator self;
    m ← meaning self;
    sv ← scheme_version self;
    let this := mkCode v d m sv in
    Code___eq__ this other
  else
    Dataset___eq__ self other.

Definition __ne__ (self : loc) (other : object) : M bool :=
  b ← __eq__ self other;
  mret (negb b).

Definition code_value_kws : list string :=
  ["CodeValue"; "LongCodeValue"; "URNCodeValue"].

(** [sum(hasattr(dataset, kw) for kw in kws)] *)
Fixpoint count_hasattr (dataset : loc) (kws : list string) : M nat :=
  match kws with
  | [] => mret 0
  | kw :: kws' =>
      b ← hasattr dataset kw;
      n ← count_hasattr dataset kws';
      mret (Nat.b2n b + n)
  end.

(** [for kw in kws: if not hasattr(dataset, kw): raise AttributeError] *)
Fixpoint require_attrs (dataset : loc) (kws : list string) : M unit :=
  match kws with
  | [] => mret tt
  | kw :: kws' =>
      b ← hasattr dataset kw;
      if b : bool then require_attrs dataset kws' else raise AttributeError
  end.

Definition from_dataset (dataset : object) (copy : bool) : M loc :=
  is_dataset ← isinstance_Dataset dataset;
  match is_dataset : bool, dataset with
  | true, VRef ds =>
      num_code_values ← count_hasattr ds code_value_kws;
      if negb (num_code_values =? 1) then raise AttributeError else
      require_attrs ds ["CodeMeaning"; "CodingSchemeDesignator"];;
      concept ← (if copy then deepcopy ds else mret ds);
      set_class concept CodedConcept;;
      mret concept
  | _, _ => raise TypeError
  end.

(** [code] is a [Code] or a [CodedConcept]; [cls( *code)] unpacks the
    four fields of the tuple, and [len] of a [None] value is a
    [TypeError]. *)
Definition from_code (code : object) : M loc :=
  is_concept ← isinstance_CodedConcept code;
  match is_concept : bool, code with
  | true, VRef l => mret l
  | _, VCode c =>
      match Pydicom.value c with
      | Some v =>
          construct v (Pydicom.scheme_designator c) (Pydicom.meaning c)
            (Pydicom.scheme_version c)
      | None => raise TypeError
      end
  | _, _ => ill_typed
  end.

End CodedConcept.

Import CodedConcept.

(** ** Vocabulary of the specification *)

#[global] Instance pyclass_eq_dec : EqDecision pyclass.
Proof. solve_decision. Defined.

#[global] Instance exn_eq_dec : EqDecision exn.
Proof. solve_decision. Defined.

(** The data element [kw] is present in the container. *)
Definition has (a : gmap string string) (kw : string) : Prop :=
  is_Some (a !! kw).

(** Exactly one of the three code-identifier attributes is present. *)
Definition exactly_one_code_value (a : gmap string string) : Prop :=
  (has a "CodeValue" ∧ ¬ has a "LongCodeValue" ∧ ¬ has a "URNCodeValue")
  ∨ (¬ has a "CodeValue" ∧ has a "LongCodeValue" ∧ ¬ has a "URNCodeValue")
  ∨ (¬ has a "CodeValue" ∧ ¬ has a "LongCodeValue" ∧ has a "URNCodeValue").

(** The container carries the elements required of a coded concept. *)
Definition coded (a : gmap string string) : Prop :=
  exactly_one_code_value a
  ∧ has a "CodeMeaning" ∧ has a "CodingSchemeDesignator".

#[global] Instance has_dec a kw : Decision (has a kw).
Proof. unfold has. apply _. Defined.

#[global] Instance exactly_one_code_value_dec a :
  Decision (exactly_one_code_value a).
Proof. unfold exactly_one_code_value. apply _. Defined.

#[global] Instance coded_dec a : Decision (coded a).
Proof. unfold coded. apply _. Defined.

(** The reference [l] points to a [CodedConcept] with the required
    elements: what each of the three construction paths returns. *)
Definition is_concept (h : heap) (l : loc) : Prop :=
  match h !! l with
  | Some o => cls o = CodedConcept ∧ coded (attrs o)
  | None => False
  end.

#[global] Instance is_concept_dec h l : Decision (is_concept h l).
Proof. unfold is_concept. destruct (h !! l); apply _. Defined.

(** Every reference in the value points into the store. *)
Definition valid (h : heap) (o : object) : Prop :=
  match o with VRef l => is_Some (h !! l) | _ => True end.

(** The value is a dataset of the store. *)
Definition is_container (o : object) : Prop :=
  match o with VRef _ => True | _ => False end.

(** The string is shaped as a URN: it begins with [urn] or contains [://]. *)
Definition urn_shaped (v : string) : Prop :=
  (∃ t, v = "urn" +:+ t) ∨ (∃ s t, v = s +:+ "://" +:+ t).

(** The three encodings of a code identifier. *)
Inductive variant := ShortValue | LongValue | UrnValue.

#[global] Instance variant_eq_dec : EqDecision variant.
Proof. solve_decision. Defined.

Definition variant_kw (x : variant) : string :=
  match x with
  | ShortValue => "CodeValue"
  | LongValue => "LongCodeValue"
  | UrnValue => "URNCodeValue"
  end.

(** The encoding [__init__] selects for the code value [v]. *)
Definition select_variant (v : string) : variant :=
  if 16 <? Str.len v then
    if Str.startswith v "urn" || Str.contains "://" v then UrnValue
    else LongValue
  else ShortValue.

(** The container holds [v] in the encoding [x] and in no other. *)
Definition encodes (a : gmap string string) (x : variant) (v : string) : Prop :=
  ∀ y, a !! variant_kw y = if bool_decide (y = x) then Some v else None.

(** ** Sample stores *)

(** Two concepts naming the same code with different meanings and
    versions, and a third one with another value. *)
Definition h_pain : heap :=
  {[ 1%positive := Obj CodedConcept
       {[ "CodeValue" := "123"; "CodingSchemeDesignator" := "SCT";
          "CodeMeaning" := "Pain" ]};
     2%positive := Obj CodedConcept
       {[ "CodeValue" := "123"; "CodingSchemeDesignator" := "SCT";
          "CodeMeaning" := "Different meaning";
          "CodingSchemeVersion" := "2020" ]};
     3%positive := Obj CodedConcept
       {[ "CodeValue" := "999"; "CodingSchemeDesignator" := "SCT";
          "CodeMeaning" := "Pain" ]} ]}.

(** A meaning of 65 characters. *)
Definition meaning65 : string :=
  "0123456789012345678901234567890123456789012345678901234567890123X".

(** A plain dataset that has every required element and a meaning of 65
    characters. *)
Definition long_meaning_attrs : gmap string string :=
  {[ "CodeValue" := "123"; "CodingSchemeDesignator" := "SCT";
     "CodeMeaning" := meaning65 ]}.

Definition h_long_meaning : heap :=
  {[ 1%positive := Obj Dataset long_meaning_attrs ]}.

(** The dataset of the round-trip scenario. *)
Definition dcm_test_attrs : gmap string string :=
  {[ "CodeValue" := "DCM-TEST"; "CodingSchemeDesignator" := "DCM";
     "CodeMeaning" := "Test" ]}.

Definition h_dcm_test : heap :=
  {[ 1%positive := Obj Dataset dcm_test_attrs ]}.

(** The stores after the adoption in place of the long-meaning dataset
    and after the construction of the code [123] of scheme [SCT]. *)
Definition h_long_meaning_adopted : heap :=
  <[1%positive := Obj CodedConcept long_meaning_attrs]> h_long_meaning.

Definition h_constructed (sv : option string) : heap :=
  {[ 1%positive := Obj CodedConcept
       (match sv with
        | Some s => <["CodingSchemeVersion" := s]>
        | None => id
        end
          {[ "CodingSchemeDesignator" := "SCT"; "CodeMeaning" := "Pain";
             "CodeValue" := "123" ]}) ]}.

(** A stand-in for Python's string hash, to evaluate [__hash__] with. *)
Definition sample_hash (s : string) : Z := Z.of_nat (String.length s).

(** A dataset that holds a value of 17 characters in [CodeValue]. *)
Definition h_short_too_long : heap :=
  {[ 1%positive := Obj Dataset
       {[ "CodeValue" := "12345678901234567"; "CodeMeaning" := "Pain";
          "CodingSchemeDesignator" := "SCT" ]} ]}.

(** A concept whose meaning was deleted after construction, and one
    that holds a value in two forms. *)
Definition h_no_meaning : heap :=
  {[ 1%positive := Obj CodedConcept
       {[ "CodeValue" := "123"; "CodingSchemeDesignator" := "SCT" ]} ]}.

Definition h_two_forms : heap :=
  {[ 1%positive := Obj CodedConcept
       {[ "LongCodeValue" := "12345678901234567";
          "URNCodeValue" := "urn:oid:1.2.840.10008";
          "CodeMeaning" := "Pain"; "CodingSchemeDesignator" := "SCT" ]} ]}.

(** ** Strings *)

Lemma prefix_append (p s : string) :
  String.prefix p s = true ↔ ∃ t, s = p +:+ t.
Proof.
  revert s. induction p as [|c p IH]; intros [|c' s]; simpl.
  - split; [intros _; by exists EmptyString | done].
  - split; [intros _; by exists (String c' s) | done].
  - split; [done | intros [t Ht]; discriminate].
  - destruct (Ascii.ascii_dec c c') as [->|Hne].
    + rewrite IH. split; intros [t Ht]; exists t; [by rewrite Ht | by injection Ht].
    + split; [done | intros [t Ht]; injection Ht; congruence].
Qed.

Lemma startswith_spec (s p : string) :
  Str.startswith s p = true ↔ ∃ t, s = p +:+ t.
Proof. apply prefix_append. Qed.

Lemma contains_spec (sub s : string) :
  Str.contains sub s = true ↔ ∃ a b, s = a +:+ sub +:+ b.
Proof.
  induction s as [|c s IH]; cbn [Str.contains].
  - rewrite orb_false_r, prefix_append. split.
    + intros [t Ht]. by exists EmptyString, t.
    + intros [a [b Hab]]. destruct a; [by exists b | discriminate].
  - rewrite orb_true_iff, prefix_append, IH. split.
    + intros [[t Ht] | [a [b Hab]]].
      * by exists EmptyString, t.
      * exists (String c a), b. simpl. by rewrite Hab.
    + intros [a [b Hab]]. destruct a as [|c' a]; simpl in Hab.
      * left. by exists b.
      * right. exists a, b. by injection Hab.
Qed.

Lemma urn_shaped_spec (v : string) :
  Str.startswith v "urn" || Str.contains "://" v = true ↔ urn_shaped v.
Proof.
  unfold urn_shaped. by rewrite orb_true_iff, startswith_spec, contains_spec.
Qed.

(** ** Running the primitives *)

Ltac run :=
  unfold mbind, M_bind, bind, mret, M_ret, ret, raise, ill_typed,
    get_obj, class_of, hasattr, getattr, getattr_default, setattr,
    set_class, alloc in *.

(** Closed (in)equalities between keywords, by evaluation. *)
Ltac kw_decide := apply (bool_decide_unpack _); vm_compute; exact I.

Lemma fresh_lookup (h : heap) : h !! fresh (dom h) = None.
Proof. apply not_elem_of_dom, is_fresh. Qed.

Lemma encodes_exactly_one a x v :
  encodes a x v → exactly_one_code_value a.
Proof.
  intros H. unfold exactly_one_code_value, has.
  pose proof (H ShortValue) as Hs. pose proof (H LongValue) as Hl.
  pose proof (H UrnValue) as Hu. simpl in *.
  destruct x; rewrite Hs, Hl, Hu; simpl.
  - left. split_and!; [by eexists | by intros [] | by intros []].
  - right; left. split_and!; [by intros [] | by eexists | by intros []].
  - right; right. split_and!; [by intros [] | by intros [] | by eexists].
Qed.

Lemma exactly_one_encodes a :
  exactly_one_code_value a → ∃ x v, encodes a x v.
Proof.
  unfold exactly_one_code_value, has.
  intros [(Hs & Hl & Hu) | [(Hs & Hl & Hu) | (Hs & Hl & Hu)]].
  - destruct Hs as [v Hv]. exists ShortValue, v. intros []; simpl; [done | |];
      by apply eq_None_not_Some.
  - destruct Hl as [v Hv]. exists LongValue, v. intros []; simpl; [| done |];
      by apply eq_None_not_Some.
  - destruct Hu as [v Hv]. exists UrnValue, v. intros []; simpl; [| | done];
      by apply eq_None_not_Some.
Qed.

Lemma value_run h l o x v :
  h !! l = Some o → encodes (attrs o) x v → value l h = Ret (Some v) h.
Proof.
  intros Hl H. unfold value. run. repeat (rewrite Hl; simpl).
  pose proof (H ShortValue) as Hs. pose proof (H LongValue) as Hg.
  pose proof (H UrnValue) as Hu. simpl in Hs, Hg, Hu.
  rewrite Hs, Hg, Hu. by destruct x.
Qed.

Lemma getattr_run h l o kw s :
  h !! l = Some o → attrs o !! kw = Some s → getattr l kw h = Ret s h.
Proof. intros Hl Hs. run. by rewrite Hl, Hs. Qed.

Lemma count_hasattr_run h l o :
  h !! l = Some o →
  ∃ n, count_hasattr l code_value_kws h = Ret n h
       ∧ (n = 1 ↔ exactly_one_code_value (attrs o)).
Proof.
  intros Hl. eexists. split.
  - simpl. run. repeat (rewrite Hl; simpl). reflexivity.
  - unfold exactly_one_code_value, has.
    repeat case_bool_decide; simpl; split; try lia; try tauto.
Qed.

Lemma require_attrs_run h l o :
  h !! l = Some o →
  require_attrs l ["CodeMeaning"; "CodingSchemeDesignator"] h
  = if decide (has (attrs o) "CodeMeaning" ∧ has (attrs o) "CodingSchemeDesignator")
    then Ret tt h else Raise AttributeError h.
Proof.
  intros Hl. simpl. run. rewrite Hl. unfold has.
  case_bool_decide; [rewrite Hl|];
  repeat case_bool_decide; case_decide; tauto.
Qed.

Lemma singleton_encodes x v : encodes {[variant_kw x := v]} x v.
Proof. intros y. by destruct x, y. Qed.

Lemma encodes_insert a x v kw s :
  (∀ y, variant_kw y ≠ kw) → encodes a x v → encodes (<[kw := s]> a) x v.
Proof. intros Hkw H y. rewrite lookup_insert_ne; [apply H | by apply not_eq_sym]. Qed.

Lemma construct_run v d m sv h :
  let l := fresh (dom h) in
  if 64 <? Str.len m then
    construct v d m sv h
    = Raise ValueError
        (<[l := Obj CodedConcept {[variant_kw (select_variant v) := v]}]> h)
  else
    ∃ a, construct v d m sv h = Ret l (<[l := Obj CodedConcept a]> h)
         ∧ encodes a (select_variant v) v
         ∧ a !! "CodeMeaning" = Some m
         ∧ a !! "CodingSchemeDesignator" = Some d
         ∧ a !! "CodingSchemeVersion" = sv.
Proof.
  intros l. unfold construct, __init__. run. fold l.
  assert (Hinit :
    (if 16 <? Str.len v
     then if Str.startswith v "urn" || Str.contains "://" v
          then setattr l "URNCodeValue" v else setattr l "LongCodeValue" v
     else setattr l "CodeValue" v) (<[l := Obj CodedConcept ∅]> h)
    = Ret tt (<[l := Obj CodedConcept {[variant_kw (select_variant v) := v]}]> h)).
  { unfold select_variant.
    destruct (16 <? Str.len v);
      [destruct (Str.startswith v "urn" || Str.contains "://" v)|];
      unfold setattr; rewrite lookup_insert_eq; simpl;
      by rewrite insert_insert_eq. }
  run. rewrite Hinit. clear Hinit.
  destruct (64 <? Str.len m); [done|].
  generalize (select_variant v). intros x.
  rewrite lookup_insert_eq, insert_insert_eq; simpl.
  rewrite lookup_insert_eq, insert_insert_eq; simpl.
  pose proof (singleton_encodes x v) as He.
  destruct sv as [s|].
  - rewrite lookup_insert_eq, insert_insert_eq; simpl.
    eexists; split; [reflexivity|]. split_and!.
    + do 3 (apply encodes_insert; [intros []; kw_decide|]). exact He.
    + rewrite lookup_insert_ne, lookup_insert_ne, lookup_insert_eq; [done | kw_decide..].
    + rewrite lookup_insert_ne, lookup_insert_eq; [done | kw_decide].
    + by rewrite lookup_insert_eq.
  - eexists; split; [reflexivity|]. split_and!.
    + do 2 (apply encodes_insert; [intros []; kw_decide|]). exact He.
    + rewrite lookup_insert_ne, lookup_insert_eq; [done | kw_decide].
    + by rewrite lookup_insert_eq.
    + rewrite lookup_insert_ne, lookup_insert_ne by kw_decide.
      destruct x; rewrite lookup_singleton_ne; (done || kw_decide).
Qed.

Lemma from_dataset_run h l o copy :
  h !! l = Some o →
  from_dataset (VRef l) copy h
  = if decide (coded (attrs o)) then
      let l' := if copy then fresh (dom h) else l in
      Ret l' (<[l' := Obj CodedConcept (attrs o)]> h)
    else Raise AttributeError h.
Proof.
  intros Hl. unfold from_dataset, isinstance_Dataset.
  destruct (count_hasattr_run h l o Hl) as (n & Hn & Hone).
  pose proof (require_attrs_run h l o Hl) as Hreq.
  remember (count_hasattr l code_value_kws) as cnt eqn:Hcnt.
  remember (require_attrs l ["CodeMeaning"; "CodingSchemeDesignator"])
    as req eqn:Hrq.
  run. rewrite Hl; simpl. rewrite Hn.
  destruct (Nat.eqb_spec n 1) as [Hn1|Hn1]; simpl.
  - rewrite Hreq. unfold coded.
    destruct (decide (has (attrs o) "CodeMeaning"
                      ∧ has (attrs o) "CodingSchemeDesignator")) as [Hr|Hr].
    + rewrite decide_True by (split; [by apply Hone | done]).
      destruct copy; unfold deepcopy; run; rewrite ?Hl; simpl.
      * by rewrite lookup_insert_eq, insert_insert_eq.
      * done.
    + rewrite decide_False by tauto. done.
  - rewrite decide_False; [done|]. unfold coded. tauto.
Qed.

Lemma from_dataset_not_container o copy h :
  ¬ is_container o → from_dataset o copy h = Raise TypeError h.
Proof. by destruct o. Qed.

(** ** Equality and hashing on the store *)

Lemma coded_reads h l o :
  h !! l = Some o → coded (attrs o) →
  ∃ x v d m,
    encodes (attrs o) x v
    ∧ value l h = Ret (Some v) h
    ∧ scheme_designator l h = Ret d h
    ∧ meaning l h = Ret m h
    ∧ attrs o !! "CodingSchemeDesignator" = Some d
    ∧ attrs o !! "CodeMeaning" = Some m.
Proof.
  intros Hl (Hone & [m Hm] & [d Hd]).
  destruct (exactly_one_encodes _ Hone) as (x & v & He).
  exists x, v, d, m. split_and!; try done.
  - by eapply value_run.
  - by eapply getattr_run.
  - by eapply getattr_run.
Qed.

Lemma scheme_version_run h l o :
  h !! l = Some o →
  scheme_version l h = Ret (attrs o !! "CodingSchemeVersion") h.
Proof.
  intros Hl. unfold scheme_version. run. rewrite Hl.
  by destruct (attrs o !! "CodingSchemeVersion").
Qed.

Lemma is_concept_inv h l :
  is_concept h l → ∃ o, h !! l = Some o ∧ cls o = CodedConcept ∧ coded (attrs o).
Proof.
  unfold is_concept. destruct (h !! l) as [o|]; [|done].
  intros [? ?]. by exists o.
Qed.

Lemma eq_concept_run h a b va da vb db :
  is_concept h a → is_concept h b →
  value a h = Ret (Some va) h → scheme_designator a h = Ret da h →
  value b h = Ret (Some vb) h → scheme_designator b h = Ret db h →
  __eq__ a (VRef b) h = Ret (bool_decide (va = vb) && bool_decide (da = db)) h.
Proof.
  intros (oa & Ha & _ & Hca)%is_concept_inv (ob & Hb & Hcls & Hcb)%is_concept_inv
    Hva Hda Hvb Hdb.
  destruct (coded_reads h a oa Ha Hca) as (? & ? & ? & ma & _ & _ & _ & Hma & _).
  pose proof (scheme_version_run h a oa Ha) as Hsv.
  unfold __eq__, Code___eq__, isinstance_CodedConcept, isinstance_Code.
  unfold mbind, M_bind, bind, mret, M_ret, ret, class_of.
  rewrite Hb; cbv beta iota. rewrite Hcls; cbn [orb].
  rewrite Hva; cbv beta iota. rewrite Hda; cbv beta iota.
  rewrite Hma; cbv beta iota. rewrite Hsv; cbv beta iota.
  rewrite Hb; cbv beta iota. rewrite Hcls.
  rewrite Hvb; cbv beta iota. rewrite Hdb; cbv beta iota. cbn [Pydicom.value Pydicom.scheme_designator].
  do 2 f_equal. apply bool_decide_ext. naive_solver.
Qed.

Lemma eq_code_run h a c va da :
  is_concept h a →
  value a h = Ret (Some va) h → scheme_designator a h = Ret da h →
  __eq__ a (VCode c) h
  = Ret (bool_decide (Some va = Pydicom.value c)
         && bool_decide (da = Pydicom.scheme_designator c)) h.
Proof.
  intros (oa & Ha & _ & Hca)%is_concept_inv Hva Hda.
  destruct (coded_reads h a oa Ha Hca) as (? & ? & ? & ma & _ & _ & _ & Hma & _).
  pose proof (scheme_version_run h a oa Ha) as Hsv.
  unfold __eq__, Code___eq__, isinstance_CodedConcept, isinstance_Code.
  unfold mbind, M_bind, bind, mret, M_ret, ret.
  cbn [orb]. rewrite Hva; cbv beta iota. rewrite Hda; cbv beta iota.
  rewrite Hma; cbv beta iota. by rewrite Hsv.
Qed.

Lemma eq_dataset_run h a b oa ob :
  h !! a = Some oa → h !! b = Some ob → cls ob = Dataset →
  __eq__ a (VRef b) h = Ret (bool_decide (attrs oa = attrs ob)) h.
Proof.
  intros Ha Hb Hcls.
  unfold __eq__, Dataset___eq__, isinstance_CodedConcept, isinstance_Code.
  unfold mbind, M_bind, bind, mret, M_ret, ret, class_of, get_obj.
  rewrite Hb; cbv beta iota. rewrite Hcls; cbn [orb].
  rewrite Ha; cbv beta iota. by rewrite Hb.
Qed.

(** ** Equality *)

(** C1. On two coded concepts, [__eq__] returns [True] exactly when their
    code values and their scheme designators are the same; the result is
    a function of these two fields alone, so meaning and scheme version
    play no part.  The same holds against a [Code] tuple. *)
Theorem eq_iff_value_and_designator :
  (∀ h a b, is_concept h a → is_concept h b →
     ∃ va da vb db r,
       value a h = Ret (Some va) h ∧ scheme_designator a h = Ret da h
       ∧ value b h = Ret (Some vb) h ∧ scheme_designator b h = Ret db h
       ∧ __eq__ a (VRef b) h = Ret r h
       ∧ (r = true ↔ va = vb ∧ da = db))
  ∧ (∀ h a c, is_concept h a →
     ∃ va da r,
       value a h = Ret (Some va) h ∧ scheme_designator a h = Ret da h
       ∧ __eq__ a (VCode c) h = Ret r h
       ∧ (r = true ↔ Pydicom.value c = Some va
                     ∧ Pydicom.scheme_designator c = da)).
Proof.
  split.
  - intros h a b Ha Hb.
    destruct (is_concept_inv _ _ Ha) as (oa & Hla & _ & Hca).
    destruct (is_concept_inv _ _ Hb) as (ob & Hlb & _ & Hcb).
    destruct (coded_reads h a oa Hla Hca) as (_ & va & da & _ & _ & Hva & Hda & _).
    destruct (coded_reads h b ob Hlb Hcb) as (_ & vb & db & _ & _ & Hvb & Hdb & _).
    exists va, da, vb, db. eexists. split_and!; try done.
    + by apply eq_concept_run.
    + rewrite andb_true_iff, !bool_decide_eq_true. done.
  - intros h a c Ha.
    destruct (is_concept_inv _ _ Ha) as (oa & Hla & _ & Hca).
    destruct (coded_reads h a oa Hla Hca) as (_ & va & da & _ & _ & Hva & Hda & _).
    exists va, da. eexists. split_and!; try done.
    + by apply eq_code_run.
    + rewrite andb_true_iff, !bool_decide_eq_true.
      split; intros [? ?]; split; congruence.
Qed.

Lemma eq_iff_value_and_designator_witness :
  is_concept h_pain 1 ∧ is_concept h_pain 2
  ∧ ∃ va da vb db r,
      value 1 h_pain = Ret (Some va) h_pain
      ∧ scheme_designator 1 h_pain = Ret da h_pain
      ∧ value 2 h_pain = Ret (Some vb) h_pain
      ∧ scheme_designator 2 h_pain = Ret db h_pain
      ∧ __eq__ 1 (VRef 2) h_pain = Ret r h_pain
      ∧ (r = true ↔ va = vb ∧ da = db).
Proof.
  assert (H1 : is_concept h_pain 1) by (apply (bool_decide_unpack _); vm_compute; exact I).
  assert (H2 : is_concept h_pain 2) by (apply (bool_decide_unpack _); vm_compute; exact I).
  split; [exact H1|]. split; [exact H2|].
  exact (proj1 eq_iff_value_and_designator h_pain 1%positive 2%positive H1 H2).
Defined.

Example eq_same_code_other_meaning :
  __eq__ 1 (VCode (mkCode (Some "123") "SCT" "Different meaning" None)) h_pain
  = Ret true h_pain.
Proof. by vm_compute. Qed.

Example eq_other_value :
  __eq__ 1 (VCode (mkCode (Some "999") "SCT" "Pain" None)) h_pain
  = Ret false h_pain
  ∧ __eq__ 1 (VRef 3) h_pain = Ret false h_pain
  ∧ __ne__ 1 (VRef 2) h_pain = Ret false h_pain.
Proof. by vm_compute. Qed.

(** ** Construction *)

Lemma select_variant_short v : Str.len v ≤ 16 → select_variant v = ShortValue.
Proof.
  intros H. unfold select_variant.
  by destruct (Nat.ltb_spec 16 (Str.len v)); [lia|].
Qed.

Lemma select_variant_urn v :
  16 < Str.len v → urn_shaped v → select_variant v = UrnValue.
Proof.
  intros H Hu%urn_shaped_spec. unfold select_variant.
  destruct (Nat.ltb_spec 16 (Str.len v)); [|lia]. by rewrite Hu.
Qed.

Lemma select_variant_long v :
  16 < Str.len v → ¬ urn_shaped v → select_variant v = LongValue.
Proof.
  intros H Hu. unfold select_variant.
  destruct (Nat.ltb_spec 16 (Str.len v)); [|lia].
  destruct (Str.startswith v "urn" || Str.contains "://" v) eqn:E; [|done].
  by apply urn_shaped_spec in E.
Qed.

Lemma construct_ok v d m sv h :
  Str.len m ≤ 64 →
  ∃ a, construct v d m sv h
       = Ret (fresh (dom h)) (<[fresh (dom h) := Obj CodedConcept a]> h)
       ∧ encodes a (select_variant v) v
       ∧ a !! "CodeMeaning" = Some m
       ∧ a !! "CodingSchemeDesignator" = Some d
       ∧ a !! "CodingSchemeVersion" = sv.
Proof.
  intros Hm. pose proof (construct_run v d m sv h) as H. simpl in H.
  by destruct (Nat.ltb_spec 64 (Str.len m)); [lia|].
Qed.

(** C2. When construction succeeds, the code value is stored in the
    short form if it has at most 16 characters, in the URN form if it is
    longer and begins with [urn] or contains [://], and in the long form
    otherwise; no other form is populated, and [value] returns it. *)
Theorem construct_selects_variant v d m sv h :
  Str.len m ≤ 64 →
  ∃ l a,
    construct v d m sv h = Ret l (<[l := Obj CodedConcept a]> h)
    ∧ h !! l = None
    ∧ (Str.len v ≤ 16 → encodes a ShortValue v)
    ∧ (16 < Str.len v → urn_shaped v → encodes a UrnValue v)
    ∧ (16 < Str.len v → ¬ urn_shaped v → encodes a LongValue v)
    ∧ value l (<[l := Obj CodedConcept a]> h)
      = Ret (Some v) (<[l := Obj CodedConcept a]> h).
Proof.
  intros Hm. destruct (construct_ok v d m sv h Hm) as (a & Hrun & He & _).
  exists (fresh (dom h)), a. split_and!.
  - done.
  - apply fresh_lookup.
  - intros Hv. by rewrite <- (select_variant_short v Hv).
  - intros Hv Hu. by rewrite <- (select_variant_urn v Hv Hu).
  - intros Hv Hu. by rewrite <- (select_variant_long v Hv Hu).
  - eapply value_run; [apply lookup_insert_eq | exact He].
Qed.

Lemma construct_selects_variant_witness :
  Str.len "Pain" ≤ 64
  ∧ ∃ l a,
      let v := "urn:oid:1.2.840.10008" in
      construct v "DCM" "Pain" None ∅ = Ret l (<[l := Obj CodedConcept a]> ∅)
      ∧ (∅ : heap) !! l = None
      ∧ (Str.len v ≤ 16 → encodes a ShortValue v)
      ∧ (16 < Str.len v → urn_shaped v → encodes a UrnValue v)
      ∧ (16 < Str.len v → ¬ urn_shaped v → encodes a LongValue v)
      ∧ value l (<[l := Obj CodedConcept a]> ∅)
        = Ret (Some v) (<[l := Obj CodedConcept a]> ∅).
Proof.
  assert (H : Str.len "Pain" ≤ 64) by (vm_compute; lia).
  split; [exact H|].
  exact (construct_selects_variant "urn:oid:1.2.840.10008" "DCM" "Pain" None ∅ H).
Defined.

Example construct_short :
  ∃ h, construct "123" "SCT" "Pain" None ∅ = Ret 1%positive h
       ∧ h !! 1%positive
         = Some (Obj CodedConcept
                   {[ "CodeValue" := "123"; "CodeMeaning" := "Pain";
                      "CodingSchemeDesignator" := "SCT" ]}).
Proof. eexists. split; [reflexivity|]. by vm_compute. Qed.

Example construct_long :
  ∃ h, construct "12345678901234567" "SCT" "Pain" None ∅ = Ret 1%positive h
       ∧ h !! 1%positive
         = Some (Obj CodedConcept
                   {[ "LongCodeValue" := "12345678901234567";
                      "CodeMeaning" := "Pain";
                      "CodingSchemeDesignator" := "SCT" ]}).
Proof. eexists. split; [reflexivity|]. by vm_compute. Qed.

Example construct_urn :
  ∃ h, construct "http://example.org/c" "SCT" "Pain" None ∅ = Ret 1%positive h
       ∧ h !! 1%positive
         = Some (Obj CodedConcept
                   {[ "URNCodeValue" := "http://example.org/c";
                      "CodeMeaning" := "Pain";
                      "CodingSchemeDesignator" := "SCT" ]}).
Proof. eexists. split; [reflexivity|]. by vm_compute. Qed.

Lemma construct_outcome v d m sv h :
  (raised (construct v d m sv h) = Some ValueError ↔ 64 < Str.len m)
  ∧ ((∃ l h', construct v d m sv h = Ret l h') ↔ Str.len m ≤ 64)
  ∧ (∀ e, raised (construct v d m sv h) = Some e → e = ValueError).
Proof.
  pose proof (construct_run v d m sv h) as H. simpl in H.
  destruct (Nat.ltb_spec 64 (Str.len m)) as [Hlt|Hle].
  - rewrite H. simpl. split_and!.
    + done.
    + split; [intros (? & ? & ?); discriminate | lia].
    + by intros e [= <-].
  - destruct H as (a & -> & _). simpl. split_and!.
    + split; [done | lia].
    + split; [done | by eauto].
    + done.
Qed.

(** C3. Construction raises [ValueError] exactly when the meaning has
    more than 64 characters, returns a concept otherwise, and raises no
    other exception. *)
Theorem construct_raises_iff_meaning_too_long v d m sv h :
  (raised (construct v d m sv h) = Some ValueError ↔ 64 < Str.len m)
  ∧ ((∃ l h', construct v d m sv h = Ret l h') ↔ Str.len m ≤ 64)
  ∧ (∀ e, raised (construct v d m sv h) = Some e → e = ValueError).
Proof. apply construct_outcome. Qed.

Example construct_meaning_65 :
  raised (construct "123" "SCT"
            "0123456789012345678901234567890123456789012345678901234567890123X"
            None ∅) = Some ValueError.
Proof. reflexivity. Qed.

Example construct_meaning_64 :
  ∃ h, construct "123" "SCT"
         "0123456789012345678901234567890123456789012345678901234567890123"
         None ∅ = Ret 1%positive h.
Proof. eexists. reflexivity. Qed.

(** ** What the construction paths return *)

Lemma encodes_coded a x v m d :
  encodes a x v → a !! "CodeMeaning" = Some m →
  a !! "CodingSchemeDesignator" = Some d → coded a.
Proof.
  intros He Hm Hd. split; [by eapply encodes_exactly_one|].
  unfold has. by rewrite Hm, Hd.
Qed.

Lemma is_concept_insert h l a :
  coded a → is_concept (<[l := Obj CodedConcept a]> h) l.
Proof. intros Ha. unfold is_concept. by rewrite lookup_insert_eq. Qed.

Lemma construct_returns v d m sv h l h' :
  construct v d m sv h = Ret l h' →
  Str.len m ≤ 64
  ∧ ∃ a, l = fresh (dom h) ∧ h' = <[l := Obj CodedConcept a]> h
         ∧ encodes a (select_variant v) v
         ∧ a !! "CodeMeaning" = Some m
         ∧ a !! "CodingSchemeDesignator" = Some d
         ∧ a !! "CodingSchemeVersion" = sv.
Proof.
  intros Hrun. pose proof (construct_run v d m sv h) as H. simpl in H.
  destruct (Nat.ltb_spec 64 (Str.len m)) as [Hlt|Hle].
  - rewrite H in Hrun. discriminate.
  - split; [done|]. destruct H as (a & Ha & Hrest).
    rewrite Ha in Hrun. injection Hrun as <- <-. by exists a.
Qed.

Lemma from_dataset_returns h ds o copy l h' :
  h !! ds = Some o → from_dataset (VRef ds) copy h = Ret l h' →
  coded (attrs o)
  ∧ l = (if copy then fresh (dom h) else ds)
  ∧ h' = <[l := Obj CodedConcept (attrs o)]> h.
Proof.
  intros Hds. rewrite (from_dataset_run h ds o copy Hds).
  destruct (decide (coded (attrs o))); [|done].
  simpl. by intros [= <- <-].
Qed.

(** The claim of C4 fails on [from_dataset]: a dataset whose meaning has
    65 characters is adopted as a [CodedConcept] with that meaning. *)
Lemma from_dataset_adopts_long_meaning :
  from_dataset (VRef 1) false h_long_meaning
  = Ret 1%positive h_long_meaning_adopted
  ∧ is_concept h_long_meaning_adopted 1
  ∧ meaning 1 h_long_meaning_adopted = Ret meaning65 h_long_meaning_adopted
  ∧ Str.len meaning65 = 65.
Proof.
  split_and!.
  - by vm_compute.
  - apply (bool_decide_unpack _). by vm_compute.
  - by vm_compute.
  - reflexivity.
Qed.

(** C4, amended.  A concept returned by direct construction, or by
    [from_code] on a [Code] tuple, has the required elements and a
    meaning of at most 64 characters.  A concept returned by
    [from_dataset] has the required elements and the meaning of the
    container it was made from, whatever its length. *)
Theorem constructed_meaning_bounded :
  (∀ v d m sv h l h',
     construct v d m sv h = Ret l h' →
     is_concept h' l ∧ meaning l h' = Ret m h' ∧ Str.len m ≤ 64)
  ∧ (∀ c h l h',
     from_code (VCode c) h = Ret l h' →
     is_concept h' l ∧ meaning l h' = Ret (Pydicom.meaning c) h'
     ∧ Str.len (Pydicom.meaning c) ≤ 64)
  ∧ (∀ h ds o copy l h',
     h !! ds = Some o →
     from_dataset (VRef ds) copy h = Ret l h' →
     is_concept h' l
     ∧ ∃ m, attrs o !! "CodeMeaning" = Some m ∧ meaning l h' = Ret m h').
Proof.
  assert (Hc : ∀ v d m sv h l h',
     construct v d m sv h = Ret l h' →
     is_concept h' l ∧ meaning l h' = Ret m h' ∧ Str.len m ≤ 64).
  { intros v d m sv h l h' (Hlen & a & _ & -> & He & Hm & Hd & _)%construct_returns.
    split_and!; [|eapply getattr_run; [apply lookup_insert_eq | done]|done].
    apply is_concept_insert. by eapply encodes_coded. }
  split_and!.
  - exact Hc.
  - intros c h l h'. unfold from_code. simpl.
    destruct (Pydicom.value c) as [v|]; [apply Hc | done].
  - intros h ds o copy l h' Hds (Hcoded & _ & ->)%(from_dataset_returns _ _ _ _ _ _ Hds).
    split; [by apply is_concept_insert|].
    destruct Hcoded as (_ & [m Hm] & _). exists m. split; [done|].
    eapply getattr_run; [apply lookup_insert_eq | done].
Qed.

Lemma constructed_meaning_bounded_witness :
  construct "123" "SCT" "Pain" None ∅ = Ret 1%positive (h_constructed None)
  ∧ is_concept (h_constructed None) 1
  ∧ meaning 1 (h_constructed None) = Ret "Pain" (h_constructed None)
  ∧ Str.len "Pain" ≤ 64.
Proof.
  assert (H : construct "123" "SCT" "Pain" None ∅
              = Ret 1%positive (h_constructed None)) by (by vm_compute).
  split; [exact H|].
  exact (proj1 constructed_meaning_bounded "123" "SCT" "Pain" None ∅
           1%positive (h_constructed None) H).
Defined.

(** ** Adoption of a dataset *)

(** C5. [from_dataset] raises [TypeError] exactly when its argument is
    not a dataset, raises [AttributeError] exactly when the dataset does
    not have exactly one of the three code-value attributes or lacks the
    meaning or the scheme designator, and returns a concept on every
    other dataset.  An exception leaves the store as it was. *)
Theorem from_dataset_errors o copy h :
  valid h o →
  (raised (from_dataset o copy h) = Some TypeError ↔ ¬ is_container o)
  ∧ (raised (from_dataset o copy h) = Some AttributeError ↔
       ∃ ds c, o = VRef ds ∧ h !! ds = Some c
               ∧ (¬ exactly_one_code_value (attrs c)
                  ∨ ¬ has (attrs c) "CodeMeaning"
                  ∨ ¬ has (attrs c) "CodingSchemeDesignator"))
  ∧ ((∃ l h', from_dataset o copy h = Ret l h') ↔
       ∃ ds c, o = VRef ds ∧ h !! ds = Some c ∧ coded (attrs c))
  ∧ (∀ e h', from_dataset o copy h = Raise e h' → h' = h).
Proof.
  intros Hv. destruct o as [| s | c | ds].
  1-3: rewrite from_dataset_not_container by (by intros []); simpl;
    split_and!;
    [ split; [by intros _ [] | done]
    | split; [done | by intros (? & ? & ? & _)]
    | split; [by intros (? & ? & ?) | by intros (? & ? & ? & _)]
    | by intros ? ? [= _ <-] ].
  destruct Hv as [c Hc]. rewrite (from_dataset_run h ds c copy Hc).
  destruct (decide (coded (attrs c))) as [Hcd|Hcd]; simpl.
  - split_and!.
    + split; [done | intros H; by destruct H].
    + split; [done|]. intros (? & c' & [= <-] & Hc' & Hbad).
      rewrite Hc in Hc'. injection Hc' as <-. unfold coded in Hcd. tauto.
    + split; [intros _; by exists ds, c | by eauto].
    + done.
  - split_and!.
    + split; [done | intros H; by destruct H].
    + split; [intros _ | done]. exists ds, c. split_and!; [done..|].
      unfold coded in Hcd.
      destruct (decide (exactly_one_code_value (attrs c))); [|tauto].
      destruct (decide (has (attrs c) "CodeMeaning")); tauto.
    + split; [by intros (? & ? & ?)|].
      intros (? & c' & [= <-] & Hc' & Hgood).
      rewrite Hc in Hc'. by injection Hc' as <-.
    + by intros ? ? [= _ <-].
Qed.

Lemma from_dataset_errors_witness :
  valid h_dcm_test (VRef 1)
  ∧ ∃ l h', from_dataset (VRef 1) true h_dcm_test = Ret l h'.
Proof.
  assert (H : valid h_dcm_test (VRef 1)) by (by eexists; vm_compute).
  split; [exact H|].
  apply (proj1 (proj2 (proj2 (from_dataset_errors (VRef 1) true h_dcm_test H)))).
  exists 1%positive, (Obj Dataset dcm_test_attrs).
  split_and!; [reflexivity | by vm_compute |].
  apply (bool_decide_unpack _). by vm_compute.
Defined.

Example from_dataset_two_code_values :
  raised (from_dataset (VRef 1) true
            {[ 1%positive := Obj Dataset (<["LongCodeValue" := "x"]> dcm_test_attrs) ]})
  = Some AttributeError.
Proof. by vm_compute. Qed.

Example from_dataset_no_meaning :
  raised (from_dataset (VRef 1) true
            {[ 1%positive := Obj Dataset (delete "CodeMeaning" dcm_test_attrs) ]})
  = Some AttributeError.
Proof. by vm_compute. Qed.

Example from_dataset_not_a_dataset :
  raised (from_dataset (VStr "DCM-TEST") true h_dcm_test) = Some TypeError
  ∧ raised (from_dataset (VCode (mkCode (Some "DCM-TEST") "DCM" "Test" None))
              true h_dcm_test) = Some TypeError.
Proof. by vm_compute. Qed.

(** C7. On a dataset with the required elements, [from_dataset] with
    [copy=True] returns a new [CodedConcept] whose [value],
    [scheme_designator] and [meaning] are those stored in the dataset;
    the dataset itself, and every other object of the store, keeps its
    attributes and its class. *)
Theorem from_dataset_copy_leaves_source h ds o :
  h !! ds = Some o → coded (attrs o) →
  ∃ l h' x v d m,
    from_dataset (VRef ds) true h = Ret l h'
    ∧ l ≠ ds ∧ h !! l = None
    ∧ h' !! ds = Some o
    ∧ (∀ k c, h !! k = Some c → h' !! k = Some c)
    ∧ (∀ k, k ≠ l → h' !! k = h !! k)
    ∧ is_concept h' l
    ∧ encodes (attrs o) x v
    ∧ attrs o !! "CodingSchemeDesignator" = Some d
    ∧ attrs o !! "CodeMeaning" = Some m
    ∧ value l h' = Ret (Some v) h'
    ∧ scheme_designator l h' = Ret d h'
    ∧ meaning l h' = Ret m h'.
Proof.
  intros Hds Hcoded.
  pose proof (fresh_lookup h) as Hfresh.
  set (l := fresh (dom h)) in *.
  set (h' := <[l := Obj CodedConcept (attrs o)]> h).
  assert (Hl : h' !! l = Some (Obj CodedConcept (attrs o)))
    by apply lookup_insert_eq.
  destruct (coded_reads h' l _ Hl Hcoded)
    as (x & v & d & m & He & Hv & Hd & Hm & Had & Ham).
  assert (Hne : l ≠ ds) by congruence.
  exists l, h', x, v, d, m. split_and!; try done.
  - rewrite (from_dataset_run h ds o true Hds). by rewrite decide_True.
  - unfold h'. by rewrite lookup_insert_ne.
  - intros k c Hk. unfold h'. rewrite lookup_insert_ne; [done | congruence].
  - intros k Hk. unfold h'. by rewrite lookup_insert_ne.
  - by apply is_concept_insert.
Qed.

Lemma from_dataset_copy_leaves_source_witness :
  h_dcm_test !! 1%positive = Some (Obj Dataset dcm_test_attrs)
  ∧ coded dcm_test_attrs
  ∧ ∃ l h' x v d m,
      from_dataset (VRef 1) true h_dcm_test = Ret l h'
      ∧ l ≠ 1%positive ∧ h_dcm_test !! l = None
      ∧ h' !! 1%positive = Some (Obj Dataset dcm_test_attrs)
      ∧ (∀ k c, h_dcm_test !! k = Some c → h' !! k = Some c)
      ∧ (∀ k, k ≠ l → h' !! k = h_dcm_test !! k)
      ∧ is_concept h' l
      ∧ encodes dcm_test_attrs x v
      ∧ dcm_test_attrs !! "CodingSchemeDesignator" = Some d
      ∧ dcm_test_attrs !! "CodeMeaning" = Some m
      ∧ value l h' = Ret (Some v) h'
      ∧ scheme_designator l h' = Ret d h'
      ∧ meaning l h' = Ret m h'.
Proof.
  assert (H1 : h_dcm_test !! 1%positive = Some (Obj Dataset dcm_test_attrs))
    by (by vm_compute).
  assert (H2 : coded dcm_test_attrs)
    by (apply (bool_decide_unpack _); by vm_compute).
  split; [exact H1|]. split; [exact H2|].
  exact (from_dataset_copy_leaves_source h_dcm_test 1%positive
           (Obj Dataset dcm_test_attrs) H1 H2).
Defined.

Example from_dataset_round_trip :
  let h' := <[2%positive := Obj CodedConcept dcm_test_attrs]> h_dcm_test in
  from_dataset (VRef 1) true h_dcm_test = Ret 2%positive h'
  ∧ value 2 h' = Ret (Some "DCM-TEST") h'
  ∧ scheme_designator 2 h' = Ret "DCM" h'
  ∧ meaning 2 h' = Ret "Test" h'
  ∧ h' !! 1%positive = Some (Obj Dataset dcm_test_attrs).
Proof. by vm_compute. Qed.

(** Without the copy the dataset itself becomes the concept: the same
    reference is returned and its class is changed in the store. *)
Lemma from_dataset_in_place h ds o :
  h !! ds = Some o → coded (attrs o) →
  from_dataset (VRef ds) false h
  = Ret ds (<[ds := Obj CodedConcept (attrs o)]> h).
Proof.
  intros Hds Hcoded. rewrite (from_dataset_run h ds o false Hds).
  by rewrite decide_True.
Qed.

(** C10. [from_dataset] looks at which attributes are present and not at
    what they hold.  A dataset whose [CodeValue] holds more than 16
    characters, or whose [LongCodeValue] holds at most 16 characters or
    a URN-shaped string, is adopted with its attributes unchanged, and
    the concept then holds its value in another form than the one
    [__init__] selects for that value. *)
Theorem from_dataset_ignores_content x v m d c0 h ds copy :
  h !! ds = Some (Obj c0 {[ variant_kw x := v; "CodeMeaning" := m;
                            "CodingSchemeDesignator" := d ]}) →
  (x = ShortValue ∧ 16 < Str.len v)
  ∨ (x = LongValue ∧ (Str.len v ≤ 16 ∨ urn_shaped v)) →
  ∃ l h',
    from_dataset (VRef ds) copy h = Ret l h'
    ∧ h' !! l = Some (Obj CodedConcept
                        {[ variant_kw x := v; "CodeMeaning" := m;
                           "CodingSchemeDesignator" := d ]})
    ∧ is_concept h' l
    ∧ value l h' = Ret (Some v) h'
    ∧ encodes {[ variant_kw x := v; "CodeMeaning" := m;
                 "CodingSchemeDesignator" := d ]} x v
    ∧ select_variant v ≠ x.
Proof.
  intros Hds Hx.
  set (a := {[ variant_kw x := v; "CodeMeaning" := m;
               "CodingSchemeDesignator" := d ]} : gmap string string) in *.
  assert (He : encodes a x v).
  { intros y. unfold a. destruct (decide (y = x)) as [->|Hne].
    - by rewrite bool_decide_eq_true_2, lookup_insert_eq.
    - rewrite bool_decide_eq_false_2 by done.
      rewrite lookup_insert_ne by (destruct x, y; (done || kw_decide)).
      rewrite lookup_insert_ne by (destruct y; kw_decide).
      by rewrite lookup_singleton_ne by (destruct y; kw_decide). }
  assert (Hcoded : coded a).
  { apply (encodes_coded a x v m d He); unfold a.
    - rewrite lookup_insert_ne by (destruct x; kw_decide).
      by rewrite lookup_insert_eq.
    - rewrite lookup_insert_ne by (destruct x; kw_decide).
      rewrite lookup_insert_ne by kw_decide. by rewrite lookup_singleton_eq. }
  set (l := if copy then fresh (dom h) else ds).
  exists l, (<[l := Obj CodedConcept a]> h). split_and!.
  - rewrite (from_dataset_run h ds _ copy Hds). simpl. by rewrite decide_True.
  - apply lookup_insert_eq.
  - by apply is_concept_insert.
  - eapply value_run; [apply lookup_insert_eq | exact He].
  - exact He.
  - destruct Hx as [[-> Hlen] | [-> [Hlen | Hurn]]].
    + unfold select_variant. destruct (Nat.ltb_spec 16 (Str.len v)); [|lia].
      by destruct (Str.startswith v "urn" || Str.contains "://" v).
    + by rewrite select_variant_short.
    + unfold select_variant. apply urn_shaped_spec in Hurn. rewrite Hurn.
      by destruct (16 <? Str.len v).
Qed.

Lemma from_dataset_ignores_content_witness :
  h_short_too_long !! 1%positive
  = Some (Obj Dataset {[ variant_kw ShortValue := "12345678901234567";
                         "CodeMeaning" := "Pain";
                         "CodingSchemeDesignator" := "SCT" ]})
  ∧ 16 < Str.len "12345678901234567"
  ∧ ∃ l h',
      from_dataset (VRef 1) false h_short_too_long = Ret l h'
      ∧ h' !! l = Some (Obj CodedConcept
                          {[ variant_kw ShortValue := "12345678901234567";
                             "CodeMeaning" := "Pain";
                             "CodingSchemeDesignator" := "SCT" ]})
      ∧ is_concept h' l
      ∧ value l h' = Ret (Some "12345678901234567") h'
      ∧ encodes {[ variant_kw ShortValue := "12345678901234567";
                   "CodeMeaning" := "Pain";
                   "CodingSchemeDesignator" := "SCT" ]}
          ShortValue "12345678901234567"
      ∧ select_variant "12345678901234567" ≠ ShortValue.
Proof.
  assert (H1 : h_short_too_long !! 1%positive
    = Some (Obj Dataset {[ variant_kw ShortValue := "12345678901234567";
                           "CodeMeaning" := "Pain";
                           "CodingSchemeDesignator" := "SCT" ]}))
    by (by vm_compute).
  assert (H2 : 16 < Str.len "12345678901234567") by (vm_compute; lia).
  split; [exact H1|]. split; [exact H2|].
  exact (from_dataset_ignores_content ShortValue "12345678901234567" "Pain"
           "SCT" Dataset h_short_too_long 1%positive false H1
           (or_introl (conj eq_refl H2))).
Defined.

(** ** Conversion of a code *)

(** C8. [from_code] returns the reference it was given, in an unchanged
    store, when that reference is a [CodedConcept]; on a [Code] tuple it
    runs the constructor on the four fields of the tuple, so it raises
    [ValueError] exactly when the meaning has more than 64 characters
    and otherwise returns a new concept that holds these fields. *)
Theorem from_code_passthrough_or_construct :
  (∀ h l o, h !! l = Some o → cls o = CodedConcept →
     from_code (VRef l) h = Ret l h)
  ∧ (∀ h v d m sv,
       from_code (VCode (mkCode (Some v) d m sv)) h = construct v d m sv h
       ∧ (raised (from_code (VCode (mkCode (Some v) d m sv)) h)
          = Some ValueError ↔ 64 < Str.len m)
       ∧ (Str.len m ≤ 64 →
          ∃ l a,
            from_code (VCode (mkCode (Some v) d m sv)) h
            = Ret l (<[l := Obj CodedConcept a]> h)
            ∧ h !! l = None
            ∧ encodes a (select_variant v) v
            ∧ a !! "CodeMeaning" = Some m
            ∧ a !! "CodingSchemeDesignator" = Some d
            ∧ a !! "CodingSchemeVersion" = sv)).
Proof.
  split.
  - intros h l o Hl Hcls. unfold from_code, isinstance_CodedConcept.
    unfold mbind, M_bind, bind, mret, M_ret, ret, class_of.
    by rewrite Hl, Hcls.
  - intros h v d m sv.
    assert (Heq : from_code (VCode (mkCode (Some v) d m sv)) h
                  = construct v d m sv h) by reflexivity.
    rewrite Heq. split_and!.
    + done.
    + apply construct_outcome.
    + intros Hm. destruct (construct_ok v d m sv h Hm) as (a & Hrun & Hrest).
      exists (fresh (dom h)), a. split; [done|]. split; [apply fresh_lookup | done].
Qed.

Lemma from_code_passthrough_or_construct_witness :
  h_pain !! 2%positive
  = Some (Obj CodedConcept
            {[ "CodeValue" := "123"; "CodingSchemeDesignator" := "SCT";
               "CodeMeaning" := "Different meaning";
               "CodingSchemeVersion" := "2020" ]})
  ∧ from_code (VRef 2) h_pain = Ret 2%positive h_pain.
Proof.
  assert (H : h_pain !! 2%positive
    = Some (Obj CodedConcept
              {[ "CodeValue" := "123"; "CodingSchemeDesignator" := "SCT";
                 "CodeMeaning" := "Different meaning";
                 "CodingSchemeVersion" := "2020" ]})) by (by vm_compute).
  split; [exact H|].
  exact (proj1 from_code_passthrough_or_construct h_pain 2%positive _ H eq_refl).
Defined.

Example from_code_long_meaning :
  raised (from_code (VCode (mkCode (Some "123") "SCT" meaning65 None)) ∅)
  = Some ValueError.
Proof. reflexivity. Qed.

(** ** The scheme version *)

(** The claim of C9 fails on the empty string: it is not [None], so the
    constructor stores it and the field is set and empty. *)
Lemma construct_stores_empty_version :
  construct "123" "SCT" "Pain" (Some EmptyString) ∅
  = Ret 1%positive (h_constructed (Some EmptyString))
  ∧ getattr 1 "CodingSchemeVersion" (h_constructed (Some EmptyString))
    = Ret EmptyString (h_constructed (Some EmptyString))
  ∧ scheme_version 1 (h_constructed (Some EmptyString))
    = Ret (Some EmptyString) (h_constructed (Some EmptyString)).
Proof. by vm_compute. Qed.

(** C9, amended.  The constructor stores the scheme version exactly when
    the argument is not [None], the empty string included; when it is
    [None] the attribute is absent from the new concept.  In both cases
    [scheme_version] returns the argument. *)
Theorem construct_stores_version v d m sv h :
  Str.len m ≤ 64 →
  ∃ l a,
    construct v d m sv h = Ret l (<[l := Obj CodedConcept a]> h)
    ∧ a !! "CodingSchemeVersion" = sv
    ∧ (has a "CodingSchemeVersion" ↔ sv ≠ None)
    ∧ scheme_version l (<[l := Obj CodedConcept a]> h)
      = Ret sv (<[l := Obj CodedConcept a]> h).
Proof.
  intros Hm.
  destruct (construct_ok v d m sv h Hm) as (a & Hrun & _ & _ & _ & Hsv).
  exists (fresh (dom h)), a. split_and!; try done.
  - unfold has. rewrite Hsv. split; [by intros [? ->] | by destruct sv].
  - rewrite <- Hsv at 1.
    apply (scheme_version_run _ _ (Obj CodedConcept a)), lookup_insert_eq.
Qed.

Lemma construct_stores_version_witness :
  Str.len "Pain" ≤ 64
  ∧ ∃ l a,
      construct "123" "SCT" "Pain" None ∅ = Ret l (<[l := Obj CodedConcept a]> ∅)
      ∧ a !! "CodingSchemeVersion" = None
      ∧ (has a "CodingSchemeVersion" ↔ None ≠ @None string)
      ∧ scheme_version l (<[l := Obj CodedConcept a]> ∅)
        = Ret None (<[l := Obj CodedConcept a]> ∅).
Proof.
  assert (H : Str.len "Pain" ≤ 64) by (vm_compute; lia).
  split; [exact H|].
  exact (construct_stores_version "123" "SCT" "Pain" None ∅ H).
Defined.

(** ** Hashing *)

Section HashSpec.

Variable hash : string → Z.

(** C6. The hash of a concept is the hash of its scheme designator
    followed by its code value, and two concepts that [__eq__] holds
    equal have the same hash. *)
Theorem hash_consistent_with_eq :
  (∀ h c, is_concept h c →
     ∃ v d, value c h = Ret (Some v) h ∧ scheme_designator c h = Ret d h
            ∧ __hash__ hash c h = Ret (hash (d +:+ v)) h)
  ∧ (∀ h a b, is_concept h a → is_concept h b →
     __eq__ a (VRef b) h = Ret true h →
     ∃ n, __hash__ hash a h = Ret n h ∧ __hash__ hash b h = Ret n h).
Proof.
  assert (Hh : ∀ h c, is_concept h c →
     ∃ v d, value c h = Ret (Some v) h ∧ scheme_designator c h = Ret d h
            ∧ __hash__ hash c h = Ret (hash (d +:+ v)) h).
  { intros h c (o & Hl & _ & Hc)%is_concept_inv.
    destruct (coded_reads h c o Hl Hc) as (_ & v & d & _ & _ & Hv & Hd & _).
    exists v, d. split_and!; try done.
    unfold __hash__. unfold mbind, M_bind, bind, mret, M_ret, ret.
    by rewrite Hd, Hv. }
  split; [exact Hh|].
  intros h a b Ha Hb Heq.
  destruct (Hh h a Ha) as (va & da & Hva & Hda & Hha).
  destruct (Hh h b Hb) as (vb & db & Hvb & Hdb & Hhb).
  rewrite (eq_concept_run h a b va da vb db Ha Hb Hva Hda Hvb Hdb) in Heq.
  injection Heq as Heq. apply andb_true_iff in Heq as [Hv Hd].
  apply bool_decide_eq_true in Hv, Hd. subst vb db.
  by exists (hash (da +:+ va)).
Qed.

End HashSpec.

Lemma hash_consistent_with_eq_witness :
  is_concept h_pain 1 ∧ is_concept h_pain 2
  ∧ __eq__ 1 (VRef 2) h_pain = Ret true h_pain
  ∧ ∃ n, __hash__ sample_hash 1 h_pain = Ret n h_pain
         ∧ __hash__ sample_hash 2 h_pain = Ret n h_pain.
Proof.
  assert (H1 : is_concept h_pain 1) by (apply (bool_decide_unpack _); by vm_compute).
  assert (H2 : is_concept h_pain 2) by (apply (bool_decide_unpack _); by vm_compute).
  assert (H3 : __eq__ 1 (VRef 2) h_pain = Ret true h_pain) by (by vm_compute).
  split; [exact H1|]. split; [exact H2|]. split; [exact H3|].
  exact (proj2 (hash_consistent_with_eq sample_hash) h_pain 1%positive 2%positive
           H1 H2 H3).
Defined.

(** ** Reading any object *)

Lemma value_total h l o :
  h !! l = Some o →
  value l h
  = Ret (match attrs o !! "CodeValue" with
         | Some s => Some s
         | None =>
             match attrs o !! "LongCodeValue" with
             | Some s => Some s
             | None => attrs o !! "URNCodeValue"
             end
         end) h.
Proof.
  intros Hl. unfold value. run. repeat (rewrite Hl; simpl).
  by destruct (attrs o !! "URNCodeValue").
Qed.

Lemma getattr_total h l o kw :
  h !! l = Some o →
  getattr l kw h
  = match attrs o !! kw with Some s => Ret s h | None => Raise AttributeError h end.
Proof. intros Hl. run. by rewrite Hl. Qed.

(** The [value] property looks for [CodeValue] first, then for
    [LongCodeValue], then for [URNCodeValue], and returns [None] exactly
    when the object has none of the three. *)
Theorem value_precedence h l o :
  h !! l = Some o →
  ∃ r, value l h = Ret r h
    ∧ (∀ s, attrs o !! "CodeValue" = Some s → r = Some s)
    ∧ (∀ s, attrs o !! "CodeValue" = None →
            attrs o !! "LongCodeValue" = Some s → r = Some s)
    ∧ (attrs o !! "CodeValue" = None → attrs o !! "LongCodeValue" = None →
       r = attrs o !! "URNCodeValue")
    ∧ (r = None ↔ ¬ has (attrs o) "CodeValue" ∧ ¬ has (attrs o) "LongCodeValue"
                   ∧ ¬ has (attrs o) "URNCodeValue").
Proof.
  intros Hl. eexists. split; [by apply value_total|]. unfold has.
  destruct (attrs o !! "CodeValue") as [s1|];
    destruct (attrs o !! "LongCodeValue") as [s2|];
    destruct (attrs o !! "URNCodeValue") as [s3|];
    split_and!; try done; try (by intros ? [= <-]); try (by intros ? ? [= <-]);
    (split; [done | intros (H1 & H2 & H3)]);
    try (by destruct H1); try (by destruct H2); try (by destruct H3).
  all: by repeat split; intros [? ?].
Qed.

Lemma value_precedence_witness :
  h_two_forms !! 1%positive
  = Some (Obj CodedConcept
       {[ "LongCodeValue" := "12345678901234567";
          "URNCodeValue" := "urn:oid:1.2.840.10008";
          "CodeMeaning" := "Pain"; "CodingSchemeDesignator" := "SCT" ]})
  ∧ value 1 h_two_forms = Ret (Some "12345678901234567") h_two_forms.
Proof.
  assert (H : h_two_forms !! 1%positive
    = Some (Obj CodedConcept
       {[ "LongCodeValue" := "12345678901234567";
          "URNCodeValue" := "urn:oid:1.2.840.10008";
          "CodeMeaning" := "Pain"; "CodingSchemeDesignator" := "SCT" ]}))
    by (by vm_compute).
  split; [exact H|].
  destruct (value_precedence h_two_forms 1%positive _ H) as (r & Hr & _ & Hlong & _).
  rewrite Hr. f_equal. apply Hlong; by vm_compute.
Defined.

(** ** Comparison on any object *)

Lemma scheme_designator_total h l o :
  h !! l = Some o →
  scheme_designator l h
  = match attrs o !! "CodingSchemeDesignator" with
    | Some s => Ret s h
    | None => Raise AttributeError h
    end.
Proof. apply getattr_total. Qed.

Lemma meaning_total h l o :
  h !! l = Some o →
  meaning l h
  = match attrs o !! "CodeMeaning" with
    | Some s => Ret s h
    | None => Raise AttributeError h
    end.
Proof. apply getattr_total. Qed.

Lemma eq_code_total h a o c :
  h !! a = Some o →
  __eq__ a (VCode c) h
  = match attrs o !! "CodingSchemeDesignator", attrs o !! "CodeMeaning" with
    | Some d, Some _ =>
        match value a h with
        | Ret v _ =>
            Ret (bool_decide (v = Pydicom.value c)
                 && bool_decide (d = Pydicom.scheme_designator c)) h
        | _ => Wrong
        end
    | _, _ => Raise AttributeError h
    end.
Proof.
  intros Ha.
  pose proof (value_total h a o Ha) as Hv.
  pose proof (scheme_designator_total h a o Ha) as Hd.
  pose proof (meaning_total h a o Ha) as Hm.
  pose proof (scheme_version_run h a o Ha) as Hsv.
  unfold __eq__, Code___eq__, isinstance_CodedConcept, isinstance_Code.
  unfold mbind, M_bind, bind, mret, M_ret, ret.
  cbn [orb]. rewrite Hv; cbv beta iota. rewrite Hd.
  destruct (attrs o !! "CodingSchemeDesignator") as [d|]; [|done].
  rewrite Hm. destruct (attrs o !! "CodeMeaning") as [m|]; [|done].
  by rewrite Hsv.
Qed.

(** Against a [Code], [__eq__] builds a tuple from all four properties
    of the concept before it compares: it raises [AttributeError] when
    the concept has lost its scheme designator or its meaning, although
    the meaning plays no part in the result, and otherwise returns
    whether value and designator agree, [None] being the value of a
    concept without a code-value attribute. *)
Theorem eq_needs_meaning h a o c :
  h !! a = Some o →
  (¬ has (attrs o) "CodingSchemeDesignator" ∨ ¬ has (attrs o) "CodeMeaning" →
   __eq__ a (VCode c) h = Raise AttributeError h)
  ∧ (has (attrs o) "CodingSchemeDesignator" → has (attrs o) "CodeMeaning" →
     ∃ v d r,
       value a h = Ret v h ∧ scheme_designator a h = Ret d h
       ∧ __eq__ a (VCode c) h = Ret r h
       ∧ (r = true ↔ v = Pydicom.value c ∧ d = Pydicom.scheme_designator c)).
Proof.
  intros Ha. rewrite (eq_code_total h a o c Ha).
  rewrite (scheme_designator_total h a o Ha), (value_total h a o Ha).
  unfold has. split.
  - intros [Hd | Hm].
    + destruct (attrs o !! "CodingSchemeDesignator"); [by destruct Hd|done].
    + destruct (attrs o !! "CodingSchemeDesignator"); [|done].
      destruct (attrs o !! "CodeMeaning"); [by destruct Hm|done].
  - intros [d Hd] [m Hm]. rewrite Hd, Hm.
    eexists _, d, _. split_and!; try done.
    by rewrite andb_true_iff, !bool_decide_eq_true.
Qed.

Lemma eq_needs_meaning_witness :
  h_no_meaning !! 1%positive
  = Some (Obj CodedConcept
            {[ "CodeValue" := "123"; "CodingSchemeDesignator" := "SCT" ]})
  ∧ __eq__ 1 (VCode (mkCode (Some "123") "SCT" "Pain" None)) h_no_meaning
    = Raise AttributeError h_no_meaning.
Proof.
  assert (H : h_no_meaning !! 1%positive
    = Some (Obj CodedConcept
              {[ "CodeValue" := "123"; "CodingSchemeDesignator" := "SCT" ]}))
    by (by vm_compute).
  split; [exact H|].
  apply (proj1 (eq_needs_meaning h_no_meaning 1%positive _
                  (mkCode (Some "123") "SCT" "Pain" None) H)).
  right. apply (bool_decide_unpack _). by vm_compute.
Defined.

Lemma eq_concept_total h a b oa ob :
  h !! a = Some oa → h !! b = Some ob → cls ob = CodedConcept →
  __eq__ a (VRef b) h
  = match attrs oa !! "CodingSchemeDesignator", attrs oa !! "CodeMeaning",
          attrs ob !! "CodingSchemeDesignator" with
    | Some d, Some _, Some d' =>
        match value a h, value b h with
        | Ret v _, Ret v' _ =>
            Ret (bool_decide (v = v') && bool_decide (d = d')) h
        | _, _ => Wrong
        end
    | _, _, _ => Raise AttributeError h
    end.
Proof.
  intros Ha Hb Hcls.
  pose proof (value_total h a oa Ha) as Hv.
  pose proof (scheme_designator_total h a oa Ha) as Hd.
  pose proof (meaning_total h a oa Ha) as Hm.
  pose proof (scheme_version_run h a oa Ha) as Hsv.
  pose proof (value_total h b ob Hb) as Hv'.
  pose proof (scheme_designator_total h b ob Hb) as Hd'.
  unfold __eq__, Code___eq__, isinstance_CodedConcept, isinstance_Code.
  unfold mbind, M_bind, bind, mret, M_ret, ret, class_of.
  rewrite Hb; cbv beta iota. rewrite Hcls; cbn [orb].
  rewrite Hv; cbv beta iota. rewrite Hd.
  destruct (attrs oa !! "CodingSchemeDesignator") as [d|]; [|done].
  rewrite Hm. destruct (attrs oa !! "CodeMeaning") as [m|]; [|done].
  rewrite Hsv; cbv beta iota. rewrite Hb; cbv beta iota. rewrite Hcls.
  rewrite Hv'; cbv beta iota. rewrite Hd'.
  by destruct (attrs ob !! "CodingSchemeDesignator") as [d'|].
Qed.

(** [__eq__] only reads: whatever it is compared with, a concept of the
    store yields a boolean or an [AttributeError], and the store is the
    same afterwards. *)
Theorem eq_reads_only h a other :
  is_Some (h !! a) → valid h other →
  (∃ r, __eq__ a other h = Ret r h)
  ∨ __eq__ a other h = Raise AttributeError h.
Proof.
  intros [oa Ha] Hv. destruct other as [| s | c | b].
  - left. exists false.
    unfold __eq__, Dataset___eq__, isinstance_CodedConcept, isinstance_Code.
    run. simpl. by rewrite Ha.
  - left. exists false.
    unfold __eq__, Dataset___eq__, isinstance_CodedConcept, isinstance_Code.
    run. simpl. by rewrite Ha.
  - rewrite (eq_code_total h a oa c Ha), (value_total h a oa Ha).
    destruct (attrs oa !! "CodingSchemeDesignator"); [|by right].
    destruct (attrs oa !! "CodeMeaning"); [|by right]. left. by eexists.
  - destruct Hv as [ob Hb]. destruct (cls ob) eqn:Hcls.
    + left. eexists. by apply (eq_dataset_run h a b oa ob).
    + rewrite (eq_concept_total h a b oa ob Ha Hb Hcls).
      rewrite (value_total h a oa Ha), (value_total h b ob Hb).
      destruct (attrs oa !! "CodingSchemeDesignator"); [|by right].
      destruct (attrs oa !! "CodeMeaning"); [|by right].
      destruct (attrs ob !! "CodingSchemeDesignator"); [|by right].
      left. by eexists.
Qed.

Lemma eq_reads_only_witness :
  is_Some (h_pain !! 1%positive) ∧ valid h_pain (VRef 3)
  ∧ ((∃ r, __eq__ 1 (VRef 3) h_pain = Ret r h_pain)
     ∨ __eq__ 1 (VRef 3) h_pain = Raise AttributeError h_pain).
Proof.
  assert (H1 : is_Some (h_pain !! 1%positive)) by (by eexists; vm_compute).
  assert (H2 : valid h_pain (VRef 3)) by (by eexists; vm_compute).
  split; [exact H1|]. split; [exact H2|].
  exact (eq_reads_only h_pain 1%positive (VRef 3) H1 H2).
Defined.

(** On the concepts of a store [__eq__] is an equivalence: a concept
    equals itself, the result does not depend on the side a concept
    stands on, and equality carries over a common middle concept. *)
Theorem eq_equivalence :
  (∀ h a, is_concept h a → __eq__ a (VRef a) h = Ret true h)
  ∧ (∀ h a b, is_concept h a → is_concept h b →
       __eq__ a (VRef b) h = __eq__ b (VRef a) h)
  ∧ (∀ h a b c, is_concept h a → is_concept h b → is_concept h c →
       __eq__ a (VRef b) h = Ret true h → __eq__ b (VRef c) h = Ret true h →
       __eq__ a (VRef c) h = Ret true h).
Proof.
  assert (Hrd : ∀ h a, is_concept h a →
    ∃ v d, value a h = Ret (Some v) h ∧ scheme_designator a h = Ret d h).
  { intros h a (o & Hl & _ & Hc)%is_concept_inv.
    destruct (coded_reads h a o Hl Hc) as (_ & v & d & _ & _ & Hv & Hd & _).
    by exists v, d. }
  split_and!.
  - intros h a Ha. destruct (Hrd h a Ha) as (v & d & Hv & Hd).
    rewrite (eq_concept_run h a a v d v d) by done.
    by rewrite !bool_decide_eq_true_2.
  - intros h a b Ha Hb.
    destruct (Hrd h a Ha) as (va & da & Hva & Hda).
    destruct (Hrd h b Hb) as (vb & db & Hvb & Hdb).
    rewrite (eq_concept_run h a b va da vb db) by done.
    rewrite (eq_concept_run h b a vb db va da) by done.
    do 2 f_equal; apply bool_decide_ext; split; congruence.
  - intros h a b c Ha Hb Hc.
    destruct (Hrd h a Ha) as (va & da & Hva & Hda).
    destruct (Hrd h b Hb) as (vb & db & Hvb & Hdb).
    destruct (Hrd h c Hc) as (vc & dc & Hvc & Hdc).
    rewrite (eq_concept_run h a b va da vb db) by done.
    rewrite (eq_concept_run h b c vb db vc dc) by done.
    rewrite (eq_concept_run h a c va da vc dc) by done.
    intros [= [H1 H2]%andb_true_iff] [= [H3 H4]%andb_true_iff].
    apply bool_decide_eq_true in H1, H2, H3, H4. subst.
    by rewrite !bool_decide_eq_true_2.
Qed.

Lemma eq_equivalence_witness :
  is_concept h_pain 1 ∧ is_concept h_pain 2
  ∧ __eq__ 1 (VRef 2) h_pain = __eq__ 2 (VRef 1) h_pain.
Proof.
  assert (H1 : is_concept h_pain 1) by (apply (bool_decide_unpack _); by vm_compute).
  assert (H2 : is_concept h_pain 2) by (apply (bool_decide_unpack _); by vm_compute).
  split; [exact H1|]. split; [exact H2|].
  exact (proj1 (proj2 eq_equivalence) h_pain 1%positive 2%positive H1 H2).
Defined.

(** [__ne__] is the opposite of [__eq__]: on two concepts it returns
    [True] exactly when their values or their scheme designators differ. *)
Theorem ne_iff_differs h a b :
  is_concept h a → is_concept h b →
  ∃ va da vb db r,
    value a h = Ret (Some va) h ∧ scheme_designator a h = Ret da h
    ∧ value b h = Ret (Some vb) h ∧ scheme_designator b h = Ret db h
    ∧ __ne__ a (VRef b) h = Ret r h
    ∧ (r = true ↔ va ≠ vb ∨ da ≠ db).
Proof.
  intros Ha Hb.
  destruct (is_concept_inv _ _ Ha) as (oa & Hla & _ & Hca).
  destruct (is_concept_inv _ _ Hb) as (ob & Hlb & _ & Hcb).
  destruct (coded_reads h a oa Hla Hca) as (_ & va & da & _ & _ & Hva & Hda & _).
  destruct (coded_reads h b ob Hlb Hcb) as (_ & vb & db & _ & _ & Hvb & Hdb & _).
  exists va, da, vb, db. eexists. split_and!; try done.
  - unfold __ne__. unfold mbind, M_bind, bind, mret, M_ret, ret.
    by rewrite (eq_concept_run h a b va da vb db).
  - rewrite negb_true_iff, andb_false_iff, !bool_decide_eq_false. done.
Qed.

Lemma ne_iff_differs_witness :
  is_concept h_pain 1 ∧ is_concept h_pain 3
  ∧ ∃ va da vb db r,
      value 1 h_pain = Ret (Some va) h_pain
      ∧ scheme_designator 1 h_pain = Ret da h_pain
      ∧ value 3 h_pain = Ret (Some vb) h_pain
      ∧ scheme_designator 3 h_pain = Ret db h_pain
      ∧ __ne__ 1 (VRef 3) h_pain = Ret r h_pain
      ∧ (r = true ↔ va ≠ vb ∨ da ≠ db).
Proof.
  assert (H1 : is_concept h_pain 1) by (apply (bool_decide_unpack _); by vm_compute).
  assert (H3 : is_concept h_pain 3) by (apply (bool_decide_unpack _); by vm_compute).
  split; [exact H1|]. split; [exact H3|].
  exact (ne_iff_differs h_pain 1%positive 3%positive H1 H3).
Defined.

(** ** Hashing any object *)

Section HashErrors.

Variable hash : string → Z.

(** [__hash__] raises [AttributeError] on a concept without a scheme
    designator, raises [TypeError] on a concept that has one but no
    code-value attribute (a string and [None] cannot be concatenated),
    and otherwise returns the hash of designator followed by value; the
    store is never changed. *)
Theorem hash_errors h l o :
  h !! l = Some o →
  (¬ has (attrs o) "CodingSchemeDesignator" →
   __hash__ hash l h = Raise AttributeError h)
  ∧ (has (attrs o) "CodingSchemeDesignator" →
     ¬ has (attrs o) "CodeValue" → ¬ has (attrs o) "LongCodeValue" →
     ¬ has (attrs o) "URNCodeValue" →
     __hash__ hash l h = Raise TypeError h)
  ∧ (∀ d v, attrs o !! "CodingSchemeDesignator" = Some d →
     value l h = Ret (Some v) h →
     __hash__ hash l h = Ret (hash (d +:+ v)) h).
Proof.
  intros Hl.
  pose proof (value_total h l o Hl) as Hv.
  pose proof (scheme_designator_total h l o Hl) as Hd.
  unfold __hash__. unfold mbind, M_bind, bind, mret, M_ret, ret, raise.
  rewrite Hd. unfold has. split_and!.
  - intros Hno. destruct (attrs o !! "CodingSchemeDesignator"); [by destruct Hno|done].
  - intros [d ->] H1 H2 H3. rewrite Hv.
    destruct (attrs o !! "CodeValue"); [by destruct H1|].
    destruct (attrs o !! "LongCodeValue"); [by destruct H2|].
    destruct (attrs o !! "URNCodeValue"); [by destruct H3|done].
  - intros d v -> Hval. by rewrite Hval.
Qed.

End HashErrors.

Lemma hash_errors_witness :
  h_pain !! 3%positive
  = Some (Obj CodedConcept
       {[ "CodeValue" := "999"; "CodingSchemeDesignator" := "SCT";
          "CodeMeaning" := "Pain" ]})
  ∧ __hash__ sample_hash 3 h_pain = Ret (sample_hash ("SCT" +:+ "999")) h_pain.
Proof.
  assert (H : h_pain !! 3%positive
    = Some (Obj CodedConcept
         {[ "CodeValue" := "999"; "CodingSchemeDesignator" := "SCT";
            "CodeMeaning" := "Pain" ]})) by (by vm_compute).
  split; [exact H|].
  apply (proj2 (proj2 (hash_errors sample_hash h_pain 3%positive _ H)));
    by vm_compute.
Defined.

(** ** Adoption in place, and what follows an adoption *)

(** With [copy=False] no object is created: the reference passed in is
    returned, the object it points to keeps its attributes and becomes a
    [CodedConcept], and every other object of the store is as before. *)
Theorem from_dataset_in_place_frame h ds o :
  h !! ds = Some o → coded (attrs o) →
  ∃ h',
    from_dataset (VRef ds) false h = Ret ds h'
    ∧ h' !! ds = Some (Obj CodedConcept (attrs o))
    ∧ (∀ k, k ≠ ds → h' !! k = h !! k)
    ∧ dom h' = dom h.
Proof.
  intros Hds Hcoded. eexists. split; [by apply from_dataset_in_place|].
  split_and!.
  - apply lookup_insert_eq.
  - intros k Hk. by rewrite lookup_insert_ne.
  - rewrite dom_insert_L. apply elem_of_dom_2 in Hds.
    apply subseteq_union_1_L. by apply singleton_subseteq_l.
Qed.

Lemma from_dataset_in_place_frame_witness :
  h_dcm_test !! 1%positive = Some (Obj Dataset dcm_test_attrs)
  ∧ coded dcm_test_attrs
  ∧ ∃ h',
      from_dataset (VRef 1) false h_dcm_test = Ret 1%positive h'
      ∧ h' !! 1%positive = Some (Obj CodedConcept dcm_test_attrs)
      ∧ (∀ k, k ≠ 1%positive → h' !! k = h_dcm_test !! k)
      ∧ dom h' = dom h_dcm_test.
Proof.
  assert (H1 : h_dcm_test !! 1%positive = Some (Obj Dataset dcm_test_attrs))
    by (by vm_compute).
  assert (H2 : coded dcm_test_attrs)
    by (apply (bool_decide_unpack _); by vm_compute).
  split; [exact H1|]. split; [exact H2|].
  exact (from_dataset_in_place_frame h_dcm_test 1%positive
           (Obj Dataset dcm_test_attrs) H1 H2).
Defined.

Lemma from_dataset_concept_noop h l :
  is_concept h l → from_dataset (VRef l) false h = Ret l h.
Proof.
  intros (o & Hl & Hcls & Hc)%is_concept_inv.
  rewrite (from_dataset_in_place h l o Hl Hc). f_equal.
  apply insert_id. rewrite Hl. f_equal. destruct o; simpl in *. by subst.
Qed.

(** On a concept, [from_dataset] with [copy=False] changes nothing: it
    returns the concept it was given and the store is the same. *)
Theorem from_dataset_idempotent h l :
  is_concept h l → from_dataset (VRef l) false h = Ret l h.
Proof. apply from_dataset_concept_noop. Qed.

Lemma from_dataset_idempotent_witness :
  is_concept h_pain 2 ∧ from_dataset (VRef 2) false h_pain = Ret 2%positive h_pain.
Proof.
  assert (H : is_concept h_pain 2) by (apply (bool_decide_unpack _); by vm_compute).
  split; [exact H|]. exact (from_dataset_idempotent h_pain 2%positive H).
Defined.

(** What [from_dataset] returns is a concept for the other constructors:
    [from_code] and a second [from_dataset] without copy both hand the
    same reference back and leave the store alone. *)
Theorem from_code_after_from_dataset o copy h l h' :
  from_dataset o copy h = Ret l h' →
  from_code (VRef l) h' = Ret l h'
  ∧ from_dataset (VRef l) false h' = Ret l h'.
Proof.
  intros Hrun. destruct o as [| | |ds]; try discriminate.
  destruct (h !! ds) as [c|] eqn:Hds.
  2: { unfold from_dataset, isinstance_Dataset in Hrun. run.
       by rewrite Hds in Hrun. }
  destruct (from_dataset_returns h ds c copy l h' Hds Hrun) as (Hc & _ & ->).
  split.
  - unfold from_code, isinstance_CodedConcept.
    unfold mbind, M_bind, bind, mret, M_ret, ret, class_of.
    by rewrite lookup_insert_eq.
  - apply from_dataset_concept_noop. by apply is_concept_insert.
Qed.

Lemma from_code_after_from_dataset_witness :
  from_dataset (VRef 1) false h_long_meaning
  = Ret 1%positive h_long_meaning_adopted
  ∧ from_code (VRef 1) h_long_meaning_adopted
    = Ret 1%positive h_long_meaning_adopted
  ∧ from_dataset (VRef 1) false h_long_meaning_adopted
    = Ret 1%positive h_long_meaning_adopted.
Proof.
  assert (H : from_dataset (VRef 1) false h_long_meaning
              = Ret 1%positive h_long_meaning_adopted) by (by vm_compute).
  split; [exact H|].
  exact (from_code_after_from_dataset (VRef 1) false h_long_meaning
           1%positive h_long_meaning_adopted H).
Defined.

(** A copy is detached from its source and an adoption in place is not:
    an attribute written to the source dataset afterwards leaves the
    copied concept as it was, while it shows in the concept adopted in
    place, which is the same object. *)
Theorem copy_detaches_in_place_aliases h ds o kw s :
  h !! ds = Some o → coded (attrs o) →
  (∃ l h1 h2,
     from_dataset (VRef ds) true h = Ret l h1
     ∧ setattr ds kw s h1 = Ret tt h2
     ∧ h2 !! l = Some (Obj CodedConcept (attrs o))
     ∧ h2 !! ds = Some (Obj (cls o) (<[kw := s]> (attrs o))))
  ∧ (∃ l h1 h2,
     from_dataset (VRef ds) false h = Ret l h1
     ∧ setattr ds kw s h1 = Ret tt h2
     ∧ l = ds
     ∧ h2 !! l = Some (Obj CodedConcept (<[kw := s]> (attrs o)))).
Proof.
  intros Hds Hcoded.
  pose proof (fresh_lookup h) as Hfresh.
  assert (Hne : fresh (dom h) ≠ ds) by congruence.
  split.
  - eexists _, _, _. split.
    { rewrite (from_dataset_run h ds o true Hds). by rewrite decide_True. }
    simpl. unfold setattr. rewrite lookup_insert_ne, Hds by done.
    split; [reflexivity|]. split.
    + by rewrite lookup_insert_ne, lookup_insert_eq by done.
    + by rewrite lookup_insert_eq.
  - eexists _, _, _. split; [by apply from_dataset_in_place|].
    unfold setattr. rewrite lookup_insert_eq. simpl.
    split; [reflexivity|]. split; [done|]. by rewrite lookup_insert_eq.
Qed.

Lemma copy_detaches_in_place_aliases_witness :
  h_dcm_test !! 1%positive = Some (Obj Dataset dcm_test_attrs)
  ∧ coded dcm_test_attrs
  ∧ ∃ l h1 h2,
      from_dataset (VRef 1) true h_dcm_test = Ret l h1
      ∧ setattr 1 "CodeMeaning" "Changed" h1 = Ret tt h2
      ∧ h2 !! l = Some (Obj CodedConcept dcm_test_attrs)
      ∧ h2 !! 1%positive
        = Some (Obj Dataset (<["CodeMeaning" := "Changed"]> dcm_test_attrs)).
Proof.
  assert (H1 : h_dcm_test !! 1%positive = Some (Obj Dataset dcm_test_attrs))
    by (by vm_compute).
  assert (H2 : coded dcm_test_attrs)
    by (apply (bool_decide_unpack _); by vm_compute).
  split; [exact H1|]. split; [exact H2|].
  exact (proj1 (copy_detaches_in_place_aliases h_dcm_test 1%positive
                  (Obj Dataset dcm_test_attrs) "CodeMeaning" "Changed" H1 H2)).
Defined.

(** ** Construction and the rest of the store *)

Lemma construct_explicit v d m sv h :
  let l := fresh (dom h) in
  construct v d m sv h
  = if 64 <? Str.len m then
      Raise ValueError
        (<[l := Obj CodedConcept {[variant_kw (select_variant v) := v]}]> h)
    else
      Ret l (<[l := Obj CodedConcept
                 (match sv with
                  | Some s => <["CodingSchemeVersion" := s]>
                  | None => id
                  end
                    (<["CodingSchemeDesignator" := d]>
                       (<["CodeMeaning" := m]>
                          {[variant_kw (select_variant v) := v]})))]> h).
Proof.
  intros l. unfold construct, __init__. run. fold l.
  assert (Hinit :
    (if 16 <? Str.len v
     then if Str.startswith v "urn" || Str.contains "://" v
          then setattr l "URNCodeValue" v else setattr l "LongCodeValue" v
     else setattr l "CodeValue" v) (<[l := Obj CodedConcept ∅]> h)
    = Ret tt (<[l := Obj CodedConcept {[variant_kw (select_variant v) := v]}]> h)).
  { unfold select_variant.
    destruct (16 <? Str.len v);
      [destruct (Str.startswith v "urn" || Str.contains "://" v)|];
      unfold setattr; rewrite lookup_insert_eq; simpl;
      by rewrite insert_insert_eq. }
  run. rewrite Hinit. clear Hinit.
  destruct (64 <? Str.len m); [done|].
  generalize (select_variant v). intros x.
  rewrite lookup_insert_eq, insert_insert_eq; simpl.
  rewrite lookup_insert_eq, insert_insert_eq; simpl.
  destruct sv as [s|]; [|done].
  by rewrite lookup_insert_eq, insert_insert_eq.
Qed.

(** The constructor touches no object that was in the store: whether it
    returns or raises, every reference that pointed to an object points
    to the same object afterwards, and the only new reference is one the
    store did not use. *)
Theorem construct_frame v d m sv h :
  ∃ h' l,
    (construct v d m sv h = Ret l h' ∨ construct v d m sv h = Raise ValueError h')
    ∧ h !! l = None
    ∧ dom h' = {[l]} ∪ dom h
    ∧ (∀ k c, h !! k = Some c → h' !! k = Some c).
Proof.
  pose proof (construct_explicit v d m sv h) as H. simpl in H.
  pose proof (fresh_lookup h) as Hfresh.
  destruct (64 <? Str.len m).
  - eexists _, (fresh (dom h)). split; [right; exact H|].
    split; [done|]. split; [by rewrite dom_insert_L|].
    intros k c Hk. rewrite lookup_insert_ne; [done | congruence].
  - eexists _, (fresh (dom h)). split; [left; exact H|].
    split; [done|]. split; [by rewrite dom_insert_L|].
    intros k c Hk. rewrite lookup_insert_ne; [done | congruence].
Qed.

(** A constructed concept has the attribute of its code value, the
    meaning, the scheme designator, the scheme version when one was
    given, and no other attribute. *)
Theorem construct_sets_exactly v d m sv h :
  Str.len m ≤ 64 →
  ∃ l a,
    construct v d m sv h = Ret l (<[l := Obj CodedConcept a]> h)
    ∧ ∀ kw, has a kw ↔
        kw = variant_kw (select_variant v)
        ∨ kw = "CodeMeaning" ∨ kw = "CodingSchemeDesignator"
        ∨ (kw = "CodingSchemeVersion" ∧ sv ≠ None).
Proof.
  intros Hm. pose proof (construct_explicit v d m sv h) as H. simpl in H.
  destruct (Nat.ltb_spec 64 (Str.len m)); [lia|].
  eexists _, _. split; [exact H|]. intros kw. unfold has.
  destruct sv as [s|]; simpl.
  - rewrite !lookup_insert_is_Some', lookup_singleton_is_Some.
    split.
    + intros [<- | [<- | [<- | <-]]]; auto.
    + intros [-> | [-> | [-> | [-> _]]]]; auto.
  - rewrite !lookup_insert_is_Some', lookup_singleton_is_Some.
    split.
    + intros [<- | [<- | <-]]; auto.
    + intros [-> | [-> | [-> | [_ Hsv]]]]; auto. done.
Qed.

Lemma construct_sets_exactly_witness :
  Str.len "Pain" ≤ 64
  ∧ ∃ l a,
      construct "123" "SCT" "Pain" None ∅ = Ret l (<[l := Obj CodedConcept a]> ∅)
      ∧ ∀ kw, has a kw ↔
          kw = variant_kw (select_variant "123")
          ∨ kw = "CodeMeaning" ∨ kw = "CodingSchemeDesignator"
          ∨ (kw = "CodingSchemeVersion" ∧ None ≠ @None string).
Proof.
  assert (H : Str.len "Pain" ≤ 64) by (vm_compute; lia).
  split; [exact H|].
  exact (construct_sets_exactly "123" "SCT" "Pain" None ∅ H).
Defined.

(** ** Round trips *)

Lemma from_code_reads v d m sv h :
  Str.len m ≤ 64 →
  ∃ l h',
    from_code (VCode (mkCode (Some v) d m sv)) h = Ret l h'
    ∧ is_concept h' l
    ∧ value l h' = Ret (Some v) h'
    ∧ scheme_designator l h' = Ret d h'
    ∧ meaning l h' = Ret m h'
    ∧ scheme_version l h' = Ret sv h'.
Proof.
  intros Hm.
  destruct (construct_ok v d m sv h Hm) as (a & Hrun & He & Ham & Had & Hsv).
  set (l := fresh (dom h)) in *.
  set (h' := <[l := Obj CodedConcept a]> h) in *.
  assert (Hl : h' !! l = Some (Obj CodedConcept a)) by apply lookup_insert_eq.
  exists l, h'. split_and!.
  - exact Hrun.
  - apply is_concept_insert. by eapply encodes_coded.
  - by eapply value_run.
  - by eapply getattr_run.
  - by eapply getattr_run.
  - rewrite <- Hsv. by apply (scheme_version_run _ _ (Obj CodedConcept a)).
Qed.

(** A code turned into a concept reads back as the code: [from_code]
    on a tuple whose meaning fits returns a concept whose four
    properties are the four fields of the tuple. *)
Theorem from_code_round_trip v d m sv h :
  Str.len m ≤ 64 →
  ∃ l h',
    from_code (VCode (mkCode (Some v) d m sv)) h = Ret l h'
    ∧ is_concept h' l
    ∧ value l h' = Ret (Some v) h'
    ∧ scheme_designator l h' = Ret d h'
    ∧ meaning l h' = Ret m h'
    ∧ scheme_version l h' = Ret sv h'.
Proof. apply from_code_reads. Qed.

Lemma from_code_round_trip_witness :
  Str.len "Pain" ≤ 64
  ∧ ∃ l h',
      from_code (VCode (mkCode (Some "123") "SCT" "Pain" (Some "2020"))) ∅
      = Ret l h'
      ∧ is_concept h' l
      ∧ value l h' = Ret (Some "123") h'
      ∧ scheme_designator l h' = Ret "SCT" h'
      ∧ meaning l h' = Ret "Pain" h'
      ∧ scheme_version l h' = Ret (Some "2020") h'.
Proof.
  assert (H : Str.len "Pain" ≤ 64) by (vm_compute; lia).
  split; [exact H|].
  exact (from_code_round_trip "123" "SCT" "Pain" (Some "2020") ∅ H).
Defined.

(** The concept made from a code is equal to that code, and to every
    code of the same value and scheme designator, whatever meaning and
    version the other code carries. *)
Theorem from_code_equals_source v d m sv h :
  Str.len m ≤ 64 →
  ∃ l h',
    from_code (VCode (mkCode (Some v) d m sv)) h = Ret l h'
    ∧ ∀ m' sv', __eq__ l (VCode (mkCode (Some v) d m' sv')) h' = Ret true h'.
Proof.
  intros Hm.
  destruct (from_code_reads v d m sv h Hm)
    as (l & h' & Hrun & Hc & Hv & Hd & _).
  exists l, h'. split; [done|]. intros m' sv'.
  rewrite (eq_code_run h' l _ v d Hc Hv Hd). simpl.
  by rewrite !bool_decide_eq_true_2.
Qed.

Lemma from_code_equals_source_witness :
  Str.len "Pain" ≤ 64
  ∧ ∃ l h',
      from_code (VCode (mkCode (Some "123") "SCT" "Pain" None)) ∅ = Ret l h'
      ∧ ∀ m' sv',
          __eq__ l (VCode (mkCode (Some "123") "SCT" m' sv')) h' = Ret true h'.
Proof.
  assert (H : Str.len "Pain" ≤ 64) by (vm_compute; lia).
  split; [exact H|].
  exact (from_code_equals_source "123" "SCT" "Pain" None ∅ H).
Defined.

Section CopyHash.

Variable hash : string → Z.

(** The concept copied from a dataset is another object that compares
    equal to its source, be the source a plain dataset or a concept; a
    source that is a concept has the same hash as its copy. *)
Theorem copy_equals_source h ds o :
  h !! ds = Some o → coded (attrs o) →
  ∃ l h',
    from_dataset (VRef ds) true h = Ret l h'
    ∧ l ≠ ds
    ∧ __eq__ l (VRef ds) h' = Ret true h'
    ∧ (cls o = CodedConcept →
       ∃ n, __hash__ hash l h' = Ret n h' ∧ __hash__ hash ds h' = Ret n h').
Proof.
  intros Hds Hcoded.
  pose proof (fresh_lookup h) as Hfresh.
  set (l := fresh (dom h)) in *.
  set (h' := <[l := Obj CodedConcept (attrs o)]> h).
  assert (Hne : l ≠ ds) by congruence.
  assert (Hl : h' !! l = Some (Obj CodedConcept (attrs o)))
    by apply lookup_insert_eq.
  assert (Hds' : h' !! ds = Some o) by (unfold h'; by rewrite lookup_insert_ne).
  destruct (coded_reads h' l _ Hl Hcoded)
    as (x & v & d & m & He & Hv & Hd & _ & Had & _).
  destruct (coded_reads h' ds _ Hds' Hcoded)
    as (x' & v' & d' & m' & He' & Hv' & Hd' & _ & Had' & _).
  assert (v' = v ∧ d' = d) as [-> ->].
  { rewrite (value_run h' ds o x v Hds' He) in Hv'. simpl in Had.
    split; congruence. }
  assert (Hcl : is_concept h' l) by (by apply is_concept_insert).
  exists l, h'. split_and!.
  - rewrite (from_dataset_run h ds o true Hds). by rewrite decide_True.
  - done.
  - destruct (cls o) eqn:Hcls.
    + rewrite (eq_dataset_run h' l ds _ o Hl Hds' Hcls). simpl.
      by rewrite bool_decide_eq_true_2.
    + assert (Hcd : is_concept h' ds) by (unfold is_concept; by rewrite Hds').
      rewrite (eq_concept_run h' l ds v d v d Hcl Hcd Hv Hd Hv' Hd').
      by rewrite !bool_decide_eq_true_2.
  - intros Hcls. exists (hash (d +:+ v)).
    unfold __hash__. unfold mbind, M_bind, bind, mret, M_ret, ret.
    by rewrite Hd, Hv, Hd', Hv'.
Qed.

End CopyHash.

Lemma copy_equals_source_witness :
  h_pain !! 3%positive
  = Some (Obj CodedConcept
       {[ "CodeValue" := "999"; "CodingSchemeDesignator" := "SCT";
          "CodeMeaning" := "Pain" ]})
  ∧ coded {[ "CodeValue" := "999"; "CodingSchemeDesignator" := "SCT";
             "CodeMeaning" := "Pain" ]}
  ∧ ∃ l h',
      from_dataset (VRef 3) true h_pain = Ret l h'
      ∧ l ≠ 3%positive
      ∧ __eq__ l (VRef 3) h' = Ret true h'
      ∧ (CodedConcept = CodedConcept →
         ∃ n, __hash__ sample_hash l h' = Ret n h'
              ∧ __hash__ sample_hash 3 h' = Ret n h').
Proof.
  assert (H1 : h_pain !! 3%positive
    = Some (Obj CodedConcept
         {[ "CodeValue" := "999"; "CodingSchemeDesignator" := "SCT";
            "CodeMeaning" := "Pain" ]})) by (by vm_compute).
  assert (H2 : coded {[ "CodeValue" := "999"; "CodingSchemeDesignator" := "SCT";
                        "CodeMeaning" := "Pain" ]})
    by (apply (bool_decide_unpack _); by vm_compute).
  split; [exact H1|]. split; [exact H2|].
  exact (copy_equals_source sample_hash h_pain 3%positive _ H1 H2).
Defined.

(** ** Identity under a change of meaning or version *)

Section Identity.

Variable hash : string → Z.

(** Writing a new meaning or a new scheme version to a concept changes
    neither its hash nor what it is equal to. *)
Theorem identity_stable h l kw s c :
  is_concept h l →
  kw = "CodeMeaning" ∨ kw = "CodingSchemeVersion" →
  ∃ h2 n r,
    setattr l kw s h = Ret tt h2
    ∧ is_concept h2 l
    ∧ __hash__ hash l h = Ret n h ∧ __hash__ hash l h2 = Ret n h2
    ∧ __eq__ l (VCode c) h = Ret r h ∧ __eq__ l (VCode c) h2 = Ret r h2.
Proof.
  intros (o & Hl & Hcls & Hc)%is_concept_inv Hkw.
  set (o2 := Obj (cls o) (<[kw := s]> (attrs o))).
  set (h2 := <[l := o2]> h).
  assert (Hl2 : h2 !! l = Some o2) by apply lookup_insert_eq.
  assert (Hcv : attrs o2 !! "CodeValue" = attrs o !! "CodeValue")
    by (apply lookup_insert_ne; destruct Hkw as [-> | ->]; kw_decide).
  assert (Hlv : attrs o2 !! "LongCodeValue" = attrs o !! "LongCodeValue")
    by (apply lookup_insert_ne; destruct Hkw as [-> | ->]; kw_decide).
  assert (Huv : attrs o2 !! "URNCodeValue" = attrs o !! "URNCodeValue")
    by (apply lookup_insert_ne; destruct Hkw as [-> | ->]; kw_decide).
  assert (Hdv : attrs o2 !! "CodingSchemeDesignator"
                = attrs o !! "CodingSchemeDesignator")
    by (apply lookup_insert_ne; destruct Hkw as [-> | ->]; kw_decide).
  assert (Hm2 : has (attrs o2) "CodeMeaning").
  { destruct Hc as (_ & Hm & _). unfold has in *. simpl.
    rewrite lookup_insert_is_Some'. by right. }
  assert (Hc2 : coded (attrs o2)).
  { destruct Hc as (Hone & _ & Hd). split_and!; [|done|].
    - unfold exactly_one_code_value, has in *. by rewrite Hcv, Hlv, Huv.
    - unfold has in *. by rewrite Hdv. }
  destruct (coded_reads h l o Hl Hc) as (_ & v & d & _ & _ & Hv & Hd & _ & Had & _).
  assert (Hv2 : value l h2 = Ret (Some v) h2).
  { rewrite (value_total h2 l o2 Hl2), Hcv, Hlv, Huv.
    rewrite (value_total h l o Hl) in Hv. by injection Hv as ->. }
  assert (Hd2 : scheme_designator l h2 = Ret d h2).
  { rewrite (scheme_designator_total h2 l o2 Hl2), Hdv. by rewrite Had. }
  assert (Hi : is_concept h l) by (unfold is_concept; by rewrite Hl).
  assert (Hi2 : is_concept h2 l) by (unfold is_concept; by rewrite Hl2).
  exists h2, (hash (d +:+ v)). eexists. split_and!.
  - unfold setattr. by rewrite Hl.
  - done.
  - unfold __hash__. unfold mbind, M_bind, bind, mret, M_ret, ret.
    by rewrite Hd, Hv.
  - unfold __hash__. unfold mbind, M_bind, bind, mret, M_ret, ret.
    by rewrite Hd2, Hv2.
  - by apply eq_code_run.
  - by apply eq_code_run.
Qed.

End Identity.

Lemma identity_stable_witness :
  is_concept h_pain 1
  ∧ ∃ h2 n r,
      setattr 1 "CodeMeaning" "Ache" h_pain = Ret tt h2
      ∧ is_concept h2 1
      ∧ __hash__ sample_hash 1 h_pain = Ret n h_pain
      ∧ __hash__ sample_hash 1 h2 = Ret n h2
      ∧ __eq__ 1 (VCode (mkCode (Some "123") "SCT" "Pain" None)) h_pain
        = Ret r h_pain
      ∧ __eq__ 1 (VCode (mkCode (Some "123") "SCT" "Pain" None)) h2 = Ret r h2.
Proof.
  assert (H : is_concept h_pain 1) by (apply (bool_decide_unpack _); by vm_compute).
  split; [exact H|].
  exact (identity_stable sample_hash h_pain 1%positive "CodeMeaning" "Ache"
           (mkCode (Some "123") "SCT" "Pain" None) H (or_introl eq_refl)).
Defined.
